(** * Automatic-Refactoring: a shallow embedding of [scripts/script_openai.py]

    The script is a linear pipeline over three external collaborators (the
    GitHub API, an LLM chat endpoint and the local clock / random module).
    Each Python function is embedded as a computation in a small
    history-and-exception monad: every observable action (a printed line, a
    client construction, a network call together with its answer, a random
    draw, a clock read) is appended to the history, and the collaborators
    are oracles that may answer differently depending on the history so
    far.  Python exceptions derived from [Exception] are values of [exn]. *)

From Stdlib Require Import String Ascii List ZArith Lia Bool Arith PeanoNat.
From Stdlib Require DecimalString DecimalNat Decimal.
Import ListNotations.
Open Scope string_scope.

(** ** Strings as Python uses them *)

Module PyStr.

(** [s.endswith(suffix)] *)
Definition endswith (s suffix : string) : bool :=
  let n := String.length s in
  let m := String.length suffix in
  if Nat.leb m n then String.eqb (substring (n - m) m s) suffix else false.

(** A Python [str] is modelled by its UTF-8 encoding.  A byte of the form
    [10xxxxxx] continues the code point begun before it. *)
Definition is_continuation (c : ascii) : bool :=
  match c with
  | Ascii _ _ _ _ _ _ b6 b7 => b7 && negb b6
  end.

(** [s[:k]] for a non-negative [k]: the first [k] code points. *)
Fixpoint take (k : nat) (s : string) : string :=
  match s with
  | EmptyString => EmptyString
  | String c r =>
      if is_continuation c then String c (take k r)
      else match k with
           | O => EmptyString
           | S k' => String c (take k' r)
           end
  end.

(** [sep.join(parts)] *)
Definition join (sep : string) (parts : list string) : string :=
  String.concat sep parts.

Definition is_sep (c : ascii) : bool := Ascii.eqb c "/".

Fixpoint dropwhile (p : ascii -> bool) (l : list ascii) : list ascii :=
  match l with
  | [] => []
  | c :: r => if p c then dropwhile p r else l
  end.

(** [posixpath.dirname]: [i = p.rfind('/') + 1; head = p[:i]]; a head that
    is not made of separators only loses its trailing separators.  The
    work is done on the reversed character list. *)
Definition dirname (p : string) : string :=
  let r := rev (list_ascii_of_string p) in
  let head_r := dropwhile (fun c => negb (is_sep c)) r in
  let head_r' :=
    if forallb is_sep head_r then head_r else dropwhile is_sep head_r in
  string_of_list_ascii (rev head_r').

(** [str(n)] for a natural number *)
Definition str (n : nat) : string := DecimalString.NilZero.string_of_uint (Nat.to_uint n).

Fixpoint zeros (k : nat) : string :=
  match k with
  | O => EmptyString
  | S k' => String "0" (zeros k')
  end.

(** [s.zfill(width)] on a string of digits *)
Definition zfill (width : nat) (s : string) : string :=
  zeros (width - String.length s) ++ s.

(** reading back a string of decimal digits *)
Definition parse_nat (s : string) : option nat :=
  match DecimalString.NilEmpty.uint_of_string s with
  | Some u => Some (Nat.of_uint u)
  | None => None
  end.

End PyStr.

(** ** Exceptions, results *)

(** An exception deriving from Python's [Exception]: its class name and
    the text [str(e)] gives. *)
Record exn := mkExn { exn_class : string; exn_str : string }.

(** [Exception(msg)] *)
Definition Exception_ (msg : string) : exn := mkExn "Exception" msg.

(** [KeyError(key)]: [str] of a [KeyError] is the [repr] of the key. *)
Definition KeyError (key : string) : exn :=
  mkExn "KeyError" ("'" ++ key ++ "'").

(** [ValueError(msg)] *)
Definition ValueError (msg : string) : exn := mkExn "ValueError" msg.

Inductive result (A : Type) : Type :=
| Ok (a : A)
| Raise (e : exn).
Arguments Ok {A} a.
Arguments Raise {A} e.

(** ** The data the script handles *)

(** The PyGithub repository object, as far as the script reads it. *)
#[warnings="-register-all"]
Inductive repo : Type :=
  mkRepo {
    full_name : string;
    owner_login : string;
    fork : bool;
    parent : option repo;
    default_branch : string
  }.

(** An entry of a git tree listing. *)
Record tree_item := mkItem { item_type : string; item_path : string }.

(** A [ContentFile]: its blob sha and what
    [decoded_content.decode('utf-8')] evaluates to. *)
Record content_file := mkContent { cf_sha : string; cf_text : result string }.

(** A chat message. *)
Record message := mkMsg { msg_role : string; msg_content : string }.

(** A naive local [datetime] as [datetime.datetime.now()] returns it. *)
Record datetime := mkDatetime {
  dt_year : nat; dt_month : nat; dt_day : nat;
  dt_hour : nat; dt_minute : nat; dt_second : nat;
  dt_microsecond : nat
}.

(** The process environment, [os.environ]. *)
Definition environ := string -> option string.

(** ** Observable events *)

(** Building a client ([EGithub], [EOpenAI]) makes no network call and is
    taken not to raise when given a string. *)

Inductive event : Type :=
| EPrint (line : string)
| EGithub (token : string)
| EGetRepo (name : string) (r : result repo)
| EGetGitTree (rp : repo) (branch : string) (recursive : bool)
              (r : result (list tree_item))
| ERandBelow (n : nat) (r : nat)
| EGetContents (rp : repo) (path ref : string) (r : result content_file)
| EOpenAI (base_url api_key : string)
| EChat (model : string) (msgs : list message) (r : result string)
| ENow (d : datetime)
| EGetBranch (rp : repo) (branch : string) (r : result string)
| ECreateGitRef (rp : repo) (ref sha : string) (r : result unit)
| EUpdateFile (rp : repo) (path msg content sha branch : string)
              (r : result unit)
| ECreatePull (target : repo) (title body head base : string)
              (r : result string).

Definition history := list event.

(** The collaborators.  Each oracle sees the history so far. *)
Record world := mkWorld {
  o_get_repo : history -> string -> string -> result repo;
  o_get_git_tree : history -> repo -> string -> bool -> result (list tree_item);
  o_random : history -> nat;
  o_get_contents : history -> repo -> string -> string -> result content_file;
  o_chat : history -> string -> string -> string -> list message -> result string;
  o_now : history -> datetime;
  o_get_branch : history -> repo -> string -> result string;
  o_create_git_ref : history -> repo -> string -> string -> result unit;
  o_update_file :
    history -> repo -> string -> string -> string -> string -> string ->
    result unit;
  o_create_pull :
    history -> repo -> string -> string -> string -> string -> result string
}.

(** ** The monad *)

Definition M (A : Type) : Type := history -> result A * history.

Definition ret {A} (a : A) : M A := fun h => (Ok a, h).

Definition bind {A B} (m : M A) (k : A -> M B) : M B :=
  fun h =>
    match m h with
    | (Ok a, h') => k a h'
    | (Raise e, h') => (Raise e, h')
    end.

Definition raise {A} (e : exn) : M A := fun h => (Raise e, h).

(** [try: body / except Exception as e: handler(e)] *)
Definition try_except {A} (body : M A) (handler : exn -> M A) : M A :=
  fun h =>
    match body h with
    | (Ok a, h') => (Ok a, h')
    | (Raise e, h') => handler e h'
    end.

Definition emit (e : event) : M unit := fun h => (Ok tt, (h ++ [e])%list).

(** A call to a collaborator that may raise: the answer is recorded. *)
Definition call {A} (o : history -> result A) (ev : result A -> event) : M A :=
  fun h => let r := o h in (r, (h ++ [ev r])%list).

(** A call to a collaborator that cannot raise. *)
Definition ask {A} (o : history -> A) (ev : A -> event) : M A :=
  fun h => let r := o h in (Ok r, (h ++ [ev r])%list).

Definition lift {A} (r : result A) : M A := fun h => (r, h).

Declare Scope py_scope.
Delimit Scope py_scope with py.
Notation "x <- m ;; k" := (bind m (fun x => k))
  (at level 100, m at next level, right associativity) : py_scope.
Notation "m ;;; k" := (bind m (fun _ => k))
  (at level 100, right associativity) : py_scope.
Open Scope py_scope.

Definition print (line : string) : M unit := emit (EPrint line).

(** [for x in xs: body x] *)
Fixpoint for_each {A} (xs : list A) (body : A -> M unit) : M unit :=
  match xs with
  | [] => ret tt
  | x :: r => body x ;;; for_each r body
  end.

(** ** Python dictionaries with string keys, in insertion order *)

Module Dict.

Definition t (V : Type) := list (string * V).

Fixpoint get {V} (d : t V) (k : string) : option V :=
  match d with
  | [] => None
  | (k', v) :: r => if String.eqb k' k then Some v else get r k
  end.

Definition mem {V} (d : t V) (k : string) : bool :=
  match get d k with Some _ => true | None => false end.

(** [d[k] = v]: an existing key keeps its place. *)
Fixpoint set {V} (d : t V) (k : string) (v : V) : t V :=
  match d with
  | [] => [(k, v)]
  | (k', v') :: r =>
      if String.eqb k' k then (k', v) :: r else (k', v') :: set r k v
  end.

Definition keys {V} (d : t V) : list string := map fst d.

Definition items {V} (d : t V) : list (string * V) := d.

End Dict.

(** ** The script *)

(** The line feed, Python's ["\n"]. *)
Definition nl : string := String (ascii_of_nat 10) EmptyString.

(** Truth value of a string: [not s] holds for the empty string. *)
Definition str_truthy (s : string) : bool := negb (String.eqb s EmptyString).

(** [IndexError(msg)] *)
Definition IndexError (msg : string) : exn := mkExn "IndexError" msg.

Section Program.

Variable w : world.
Variable env : environ.

(** Width to which the C library's [%Y] pads the year with zeros
    (4 where it pads, 0 where it prints the bare number). *)
Variable year_width : nat.

(** *** The [random] module *)

(** [Random._randbelow(n)] for [n > 0] *)
Definition randbelow (n : nat) : M nat :=
  ask (fun h => o_random w h mod n) (ERandBelow n).

(** [random.choice(seq)] *)
Definition random_choice {A} (seq : list A) : M A :=
  match seq with
  | [] => raise (IndexError "Cannot choose from an empty sequence")
  | d :: _ => j <- randbelow (List.length seq) ;; ret (nth j seq d)
  end.

Fixpoint list_set {A} (l : list A) (j : nat) (x : A) : list A :=
  match l, j with
  | [], _ => []
  | _ :: r, O => x :: r
  | y :: r, S j' => y :: list_set r j' x
  end.

(** The selection loop of [random.sample] over a pool: draw a slot, take
    its entry, move the last unused entry into the slot.  (CPython switches
    to rejection sampling on large populations; the script discards the
    sample, so only the argument check of [random_sample] is observable.) *)
Fixpoint sample_pool {A} (pool : list A) (k : nat) : M (list A) :=
  match k with
  | O => ret []
  | S k' =>
      match pool with
      | [] => ret []
      | d :: _ =>
          let n := List.length pool in
          j <- randbelow n ;;
          let x := nth j pool d in
          let pool' := firstn (n - 1) (list_set pool j (last pool d)) in
          rest <- sample_pool pool' k' ;;
          ret (x :: rest)
      end
  end.

(** [random.sample(population, k)] *)
Definition random_sample {A} (population : list A) (k : Z) : M (list A) :=
  let n := Z.of_nat (List.length population) in
  if (0 <=? k)%Z && (k <=? n)%Z then sample_pool population (Z.to_nat k)
  else raise (ValueError "Sample larger than population or is negative").

(** *** [call_openai] *)

Definition openrouter_url : string := "https://openrouter.ai/api/v1".
Definition openai_model : string := "openai/gpt-4o-mini".

Definition chat_messages (prompt role : string) : list message :=
  [ mkMsg "system" "You are a helpful assistant.";
    mkMsg "user" (role ++ ": " ++ prompt) ].

Definition call_openai (prompt role : string) : M string :=
  print ("[OpenAI - " ++ role ++ "] Prompt (first 100 chars): "
         ++ PyStr.take 100 prompt ++ "..." ++ nl) ;;;
  api_key <- match env "OPENAI_KEY" with
             | Some k => ret k
             | None => raise (KeyError "OPENAI_KEY")
             end ;;
  emit (EOpenAI openrouter_url api_key) ;;;
  call (fun h => o_chat w h openrouter_url api_key openai_model
                   (chat_messages prompt role))
       (EChat openai_model (chat_messages prompt role)).

(** *** [get_repo] *)

Definition repo_name : string := "Sanchit27-jalan/SE-Project-1".

Definition token_error : exn :=
  Exception_ "TOKEN and REPOSITORY must be set as environment variables.".

Definition get_repo : M repo :=
  match env "TOKEN" with
  | None => raise token_error
  | Some token =>
      if negb (str_truthy token) || negb (str_truthy repo_name)
      then raise token_error
      else
        emit (EGithub token) ;;;
        rp <- call (fun h => o_get_repo w h token repo_name)
                   (EGetRepo repo_name) ;;
        print ("Connected to GitHub repository: " ++ repo_name) ;;;
        ret rp
  end.

(** *** [pick_files] *)

(** One turn of the grouping loop. *)
Definition group_item (dir_files : Dict.t (list string)) (item : tree_item)
  : Dict.t (list string) :=
  if String.eqb (item_type item) "blob"
     && PyStr.endswith (item_path item) ".java"
  then
    let parent_dir := PyStr.dirname (item_path item) in
    let d := if Dict.mem dir_files parent_dir then dir_files
             else Dict.set dir_files parent_dir [] in
    match Dict.get d parent_dir with
    | Some l => Dict.set d parent_dir (l ++ [item_path item])%list
    | None => d
    end
  else dir_files.

Definition group_by_dir (tree : list tree_item) : Dict.t (list string) :=
  fold_left group_item tree [].

Definition fixed_selection : list string :=
  [ "reader-core/src/main/java/com/sismics/reader/core/dao/file/rss/RssReader.java";
    "reader-core/src/main/java/com/sismics/reader/core/service/FeedService.java" ].

Definition pick_files (rp : repo) (branch : option string) (count : Z)
  : M (list string) :=
  let branch := match branch with
                | None => default_branch rp
                | Some b => b
                end in
  tree <- call (fun h => o_get_git_tree w h rp branch true)
               (EGetGitTree rp branch true) ;;
  let dir_files := group_by_dir tree in
  match dir_files with
  | [] => ret []
  | _ :: _ =>
      target_dir <- random_choice (Dict.keys dir_files) ;;
      files_in_dir <- match Dict.get dir_files target_dir with
                      | Some l => ret l
                      | None => raise (KeyError target_dir)
                      end ;;
      selected_files <-
        random_sample files_in_dir
          (Z.min count (Z.of_nat (List.length files_in_dir))) ;;
      let selected_files := fixed_selection in
      print ("Selected files from directory '" ++ target_dir ++ "':") ;;;
      for_each selected_files (fun f => print (" - " ++ f)) ;;;
      ret selected_files
  end.

(** *** [refactor_file_with_llm] *)

Definition prompt_design_smells (original_code : string) : string :=
  "Analyze the following code for design smells and code quality metrics including:"
  ++ nl ++ "- Cyclomatic complexity"
  ++ nl ++ "- Lines of code"
  ++ nl ++ "- Method length"
  ++ nl ++ "- Class coupling"
  ++ nl ++ "- Number of parameters"
  ++ nl ++ "- Depth of inheritance"
  ++ nl ++ "List any issues found and provide recommendations for improvement:"
  ++ nl ++ nl
  ++ original_code ++ nl ++ nl
  ++ "Please provide a brief summary focusing on the most critical issues and metrics that exceed common thresholds.".

Definition prompt_refactor (design_smells original_code : string) : string :=
  "Based on the following detected design smells:" ++ nl
  ++ design_smells ++ nl ++ nl
  ++ "Refactor the code below to address these issues and improve code quality. "
  ++ "Return only the complete new file content:" ++ nl ++ nl
  ++ original_code.

Definition refactor_file_with_llm (rp : repo) (file_path branch : string)
    (llm_callback : string -> string -> M string) (llm_name : string)
  : M (string * string * string) :=
  content_file <- call (fun h => o_get_contents w h rp file_path branch)
                       (EGetContents rp file_path branch) ;;
  original_code <- lift (cf_text content_file) ;;
  design_smells <-
    llm_callback (prompt_design_smells original_code) "Design Smell Finder" ;;
  refactored_code <-
    llm_callback (prompt_refactor design_smells original_code)
                 "Refactoring Expert" ;;
  ret (design_smells, refactored_code, llm_name).

(** *** [apply_refactorings_to_files] *)

(** [d.strftime("%Y%m%d%H%M%S")] *)
Definition strftime_compact (d : datetime) : string :=
  PyStr.zfill year_width (PyStr.str (dt_year d))
  ++ PyStr.zfill 2 (PyStr.str (dt_month d))
  ++ PyStr.zfill 2 (PyStr.str (dt_day d))
  ++ PyStr.zfill 2 (PyStr.str (dt_hour d))
  ++ PyStr.zfill 2 (PyStr.str (dt_minute d))
  ++ PyStr.zfill 2 (PyStr.str (dt_second d)).

Definition branch_prefix : string := "openai-refactor-".

Definition commit_message : string :=
  "Apply OpenAI-suggested refactorings for selected files".

Definition apply_refactorings_to_files (rp : repo)
    (files_updates : Dict.t string) : M string :=
  now <- ask (o_now w) ENow ;;
  let branch_name := branch_prefix ++ strftime_compact now in
  let ref_name := "refs/heads/" ++ branch_name in
  base_sha <- call (fun h => o_get_branch w h rp "master")
                   (EGetBranch rp "master") ;;
  print ("Creating new branch '" ++ branch_name ++ "' from 'main'...") ;;;
  call (fun h => o_create_git_ref w h rp ref_name base_sha)
       (ECreateGitRef rp ref_name base_sha) ;;;
  for_each (Dict.items files_updates)
    (fun '(file_path, new_content) =>
       print ("Updating file: " ++ file_path ++ " at repo: " ++ full_name rp) ;;;
       file_obj <- call (fun h => o_get_contents w h rp file_path branch_name)
                        (EGetContents rp file_path branch_name) ;;
       call (fun h => o_update_file w h rp file_path commit_message
                        new_content (cf_sha file_obj) branch_name)
            (EUpdateFile rp file_path commit_message new_content
                         (cf_sha file_obj) branch_name)) ;;;
  ret branch_name.

(** *** [create_pull_request] *)

Definition pr_title : string :=
  "OpenAI Refactoring: Automated Code Improvements".

(** The pair [(target_repo, head_branch)] the conditional computes. *)
Definition pull_target (rp : repo) (branch_name : string) : repo * string :=
  match fork rp, parent rp with
  | true, Some up => (up, owner_login rp ++ ":" ++ branch_name)
  | _, _ => (rp, branch_name)
  end.

Definition create_pull_request (rp : repo) (branch_name pr_body : string)
  : M string :=
  let '(target_repo, head_branch) := pull_target rp branch_name in
  let base_branch := "master" in
  call (fun h => o_create_pull w h target_repo pr_title pr_body
                   head_branch base_branch)
       (ECreatePull target_repo pr_title pr_body head_branch base_branch).

(** *** [main] *)

(** The loop over the selected files, threading the two dictionaries. *)
Fixpoint process_files (rp : repo) (files : list string)
    (files_design_smells files_refactored : Dict.t string)
  : M (Dict.t string * Dict.t string) :=
  match files with
  | [] => ret (files_design_smells, files_refactored)
  | file_path :: rest =>
      print (nl ++ "Processing file: " ++ file_path) ;;;
      res <- refactor_file_with_llm rp file_path "master" call_openai "OpenAI" ;;
      let '(openai_design_smells, openai_refactored_code, _) := res in
      process_files rp rest
        (Dict.set files_design_smells file_path openai_design_smells)
        (Dict.set files_refactored file_path openai_refactored_code)
  end.

Definition pr_body_lines (files_design_smells : Dict.t string) : list string :=
  ("## OpenAI LLM Refactoring Summary" ++ nl)
  :: flat_map (fun '(file_path, design_smells) =>
                 [ "### File: `" ++ file_path ++ "`";
                   "**Design Smells Detected:**";
                   design_smells;
                   nl ])
              (Dict.items files_design_smells).

Definition pr_body_of (files_design_smells : Dict.t string) : string :=
  PyStr.join nl (pr_body_lines files_design_smells).

(** The body of the [try] block. *)
Definition main_body : M unit :=
  rp <- get_repo ;;
  selected_files <- pick_files rp (Some "master") 2 ;;
  match selected_files with
  | [] => print "No eligible files found for refactoring."
  | _ :: _ =>
      dicts <- process_files rp selected_files [] [] ;;
      let '(files_design_smells, files_refactored) := dicts in
      branch_name <- apply_refactorings_to_files rp files_refactored ;;
      let pr_body := pr_body_of files_design_smells in
      pr_url <- create_pull_request rp branch_name pr_body ;;
      print (nl ++ "Pull Request created successfully:") ;;;
      print pr_url
  end.

Definition main : M unit :=
  try_except main_body
    (fun e => print ("An error occurred: " ++ exn_str e)).

(** Running the file as a script: [main()] is called on an empty history;
    the interpreter exits with status 0 when it returns and with status 1
    when an exception escapes. *)
Definition run_script : nat * history :=
  match main [] with
  | (Ok _, h) => (0, h)
  | (Raise _, h) => (1, h)
  end.

End Program.

(** ** A concrete world, used to run the script *)

Module Demo.

Definition upstream : repo :=
  mkRepo "sismics/reader" "sismics" false None "master".

Definition forked : repo :=
  mkRepo "Sanchit27-jalan/SE-Project-1" "Sanchit27-jalan" true (Some upstream)
         "master".

Definition orphan_fork : repo :=
  mkRepo "Sanchit27-jalan/SE-Project-1" "Sanchit27-jalan" true None "master".

Definition plain : repo :=
  mkRepo "Sanchit27-jalan/SE-Project-1" "Sanchit27-jalan" false None "master".

Definition two_dirs : list tree_item :=
  [ mkItem "tree" "a"; mkItem "blob" "a/X.java";
    mkItem "tree" "b"; mkItem "blob" "b/Y.java" ].

Definition no_java : list tree_item :=
  [ mkItem "tree" "docs"; mkItem "blob" "docs/readme.md";
    mkItem "blob" "setup.py" ].

Definition noon : datetime := mkDatetime 2025 3 9 12 0 7 420.

Definition noon_later : datetime := mkDatetime 2025 3 9 12 0 8 15.

(** A world in which every call succeeds; the LLM's answer names the
    position of the call in the history. *)
Definition world_of (rp : repo) (tree : list tree_item) (now : datetime)
  : world :=
  mkWorld
    (fun _ _ _ => Ok rp)
    (fun _ _ _ _ => Ok tree)
    (fun h => List.length h)
    (fun _ _ path _ => Ok (mkContent ("sha-" ++ path) (Ok ("class " ++ path))))
    (fun h _ _ _ _ => Ok ("answer " ++ PyStr.str (List.length h)))
    (fun _ => now)
    (fun _ _ _ => Ok "c0ffee")
    (fun _ _ _ _ => Ok tt)
    (fun _ _ _ _ _ _ _ => Ok tt)
    (fun _ target _ _ _ _ => Ok ("https://github.com/" ++ full_name target ++ "/pull/1")).

Definition env_full : environ :=
  fun k => if String.eqb k "TOKEN" then Some "ghp_token"
           else if String.eqb k "OPENAI_KEY" then Some "sk-key"
           else None.

Definition env_no_token : environ :=
  fun k => if String.eqb k "OPENAI_KEY" then Some "sk-key" else None.

Definition env_empty_token : environ :=
  fun k => if String.eqb k "TOKEN" then Some EmptyString else None.

Definition env_no_key : environ :=
  fun k => if String.eqb k "TOKEN" then Some "ghp_token" else None.

End Demo.

(** ** Reading a history *)

(** The chat completions requested, with their answers. *)
Definition chat_calls (h : history) : list (list message * result string) :=
  flat_map (fun e => match e with
                     | EChat _ msgs r => [(msgs, r)]
                     | _ => []
                     end) h.

(** The file updates requested: path and new content. *)
Definition update_calls (h : history) : list (string * string) :=
  flat_map (fun e => match e with
                     | EUpdateFile _ path _ content _ _ _ => [(path, content)]
                     | _ => []
                     end) h.

(** The pull requests requested: target, head and body. *)
Definition pull_calls (h : history) : list (repo * string * string) :=
  flat_map (fun e => match e with
                     | ECreatePull target _ body head _ _ => [(target, head, body)]
                     | _ => []
                     end) h.

(** Events of the LLM and of publishing: an LLM client or chat call, a
    branch creation, a file update, a pull-request creation. *)
Definition is_llm_or_publish (e : event) : bool :=
  match e with
  | EOpenAI _ _ | EChat _ _ _ | ECreateGitRef _ _ _ _
  | EUpdateFile _ _ _ _ _ _ _ | ECreatePull _ _ _ _ _ _ => true
  | _ => false
  end.

Definition quiet (h : history) : Prop :=
  existsb is_llm_or_publish h = false.

(** The blobs of a tree listing that [pick_files] keeps. *)
Definition java_blobs (tree : list tree_item) : list tree_item :=
  filter (fun item => String.eqb (item_type item) "blob"
                      && PyStr.endswith (item_path item) ".java") tree.

(** Every call to the source-control host and to the LLM succeeds, and
    every fetched file decodes. *)
Record all_succeed (w : world) : Prop := {
  ok_get_repo : forall h t n, exists rp, o_get_repo w h t n = Ok rp;
  ok_get_git_tree : forall h rp b r, exists tree, o_get_git_tree w h rp b r = Ok tree;
  ok_get_contents :
    forall h rp p b, exists sha code,
      o_get_contents w h rp p b = Ok (mkContent sha (Ok code));
  ok_chat : forall h u k m ms, exists a, o_chat w h u k m ms = Ok a;
  ok_get_branch : forall h rp b, exists sha, o_get_branch w h rp b = Ok sha;
  ok_create_git_ref : forall h rp r s, o_create_git_ref w h rp r s = Ok tt;
  ok_update_file :
    forall h rp p m c s b, o_update_file w h rp p m c s b = Ok tt;
  ok_create_pull :
    forall h rp t b hd bs, exists url, o_create_pull w h rp t b hd bs = Ok url
}.

(** The invariants of a [datetime] object. *)
#[warnings="-abstract-large-number"]
Definition valid_datetime (d : datetime) : Prop :=
  1 <= dt_year d <= 9999 /\ 1 <= dt_month d <= 12 /\ 1 <= dt_day d <= 31
  /\ dt_hour d < 24 /\ dt_minute d < 60 /\ dt_second d < 60
  /\ dt_microsecond d < 1000 * 1000.

(** A [datetime] truncated to whole seconds. *)
Definition to_the_second (d : datetime) : datetime :=
  mkDatetime (dt_year d) (dt_month d) (dt_day d)
             (dt_hour d) (dt_minute d) (dt_second d) 0.

(** The branch [pick_files] lists: the default branch when none is given. *)
Definition branch_of (rp : repo) (branch : option string) : string :=
  match branch with
  | None => default_branch rp
  | Some b => b
  end.

(** What a successful [get_repo] adds to the history. *)
Definition connected (tok : string) (rp : repo) : history :=
  [ EGithub tok; EGetRepo repo_name (Ok rp);
    EPrint ("Connected to GitHub repository: " ++ repo_name) ].

(** The line [call_openai] prints before it builds its client. *)
Definition banner (role prompt : string) : string :=
  "[OpenAI - " ++ role ++ "] Prompt (first 100 chars): "
  ++ PyStr.take 100 prompt ++ "..." ++ nl.

(** What [call_openai] adds to the history up to the chat call. *)
Definition llm_request (key role prompt : string) : history :=
  [ EPrint (banner role prompt); EOpenAI openrouter_url key ].

(** An answered chat call. *)
Definition llm_answer (role prompt : string) (r : result string) : event :=
  EChat openai_model (chat_messages prompt role) r.

Definition smell_role : string := "Design Smell Finder".
Definition refactor_role : string := "Refactoring Expert".

(** What a successful [refactor_file_with_llm] over [call_openai] adds to
    the history. *)
Definition refactor_trace (rp : repo) (file_path branch key : string)
    (cf : content_file) (code smells refactored : string) : history :=
  (EGetContents rp file_path branch (Ok cf)
   :: llm_request key smell_role (prompt_design_smells code)
   ++ llm_answer smell_role (prompt_design_smells code) (Ok smells)
   :: llm_request key refactor_role (prompt_refactor smells code)
   ++ [llm_answer refactor_role (prompt_refactor smells code) (Ok refactored)])%list.

(** The path [main] processes first, when files are selected. *)
Definition first_selected : string := hd EmptyString fixed_selection.

(** The line [main] prints before it processes a file. *)
Definition processing (file_path : string) : event :=
  EPrint (nl ++ "Processing file: " ++ file_path).

(** The paths [pick_files] keeps, in the order of the listing. *)
Definition java_paths (tree : list tree_item) : list string :=
  map item_path (java_blobs tree).

(** The paths of a list whose parent directory is [dir]. *)
Definition paths_in (dir : string) (paths : list string) : list string :=
  filter (fun p => String.eqb (PyStr.dirname p) dir) paths.

(** What a dictionary of groups holds for a group: nothing when empty. *)
Definition group_entry (files : list string) : option (list string) :=
  match files with
  | [] => None
  | _ :: _ => Some files
  end.

(** Calls that leave the process, to the source-control host or to the
    LLM endpoint. *)
Definition is_network (e : event) : bool :=
  match e with
  | EGetRepo _ _ | EGetGitTree _ _ _ _ | EGetContents _ _ _ _
  | EChat _ _ _ | EGetBranch _ _ _ | ECreateGitRef _ _ _ _
  | EUpdateFile _ _ _ _ _ _ _ | ECreatePull _ _ _ _ _ _ => true
  | _ => false
  end.

Definition network_calls (h : history) : history := filter is_network h.

(** A run of random draws: the bound and the outcome of each. *)
Definition draws (js : list (nat * nat)) : history :=
  map (fun nj => ERandBelow (fst nj) (snd nj)) js.

(** The part of the pull-request body that one file contributes. *)
Definition pr_section (entry : string * string) : string :=
  nl ++ "### File: `" ++ fst entry ++ "`" ++ nl
  ++ "**Design Smells Detected:**" ++ nl ++ snd entry ++ nl ++ nl.

Definition pr_sections (d : Dict.t string) : string :=
  fold_right (fun entry rest => pr_section entry ++ rest) EmptyString d.

Definition pr_header : string := "## OpenAI LLM Refactoring Summary" ++ nl.

(** Characters of a string, tested one by one. *)
Definition string_forallb (p : ascii -> bool) (s : string) : bool :=
  forallb p (list_ascii_of_string s).

Definition is_digit (c : ascii) : bool :=
  Nat.leb 48 (nat_of_ascii c) && Nat.leb (nat_of_ascii c) 57.

Definition is_lower (c : ascii) : bool :=
  Nat.leb 97 (nat_of_ascii c) && Nat.leb (nat_of_ascii c) 122.

(** Lower-case letters, digits and the hyphen. *)
Definition is_ref_char (c : ascii) : bool :=
  is_lower c || is_digit c || Ascii.eqb c "-".

(** Events that change the repository: a branch creation, a file update,
    a pull-request creation. *)
Definition is_publish (e : event) : bool :=
  match e with
  | ECreateGitRef _ _ _ _ | EUpdateFile _ _ _ _ _ _ _
  | ECreatePull _ _ _ _ _ _ => true
  | _ => false
  end.

Definition publish_calls (h : history) : history := filter is_publish h.

(** The branch creations requested: ref, base sha and outcome. *)
Definition ref_calls (h : history) : list (string * string * result unit) :=
  flat_map (fun e => match e with
                     | ECreateGitRef _ ref sha r => [(ref, sha, r)]
                     | _ => []
                     end) h.

(** The branches the file updates were addressed to. *)
Definition update_branches (h : history) : list string :=
  flat_map (fun e => match e with
                     | EUpdateFile _ _ _ _ _ branch _ => [branch]
                     | _ => []
                     end) h.

(** The file updates that went through: path and new content. *)
Definition applied_updates (h : history) : list (string * string) :=
  flat_map (fun e => match e with
                     | EUpdateFile _ path _ content _ _ (Ok _) => [(path, content)]
                     | _ => []
                     end) h.

(** The content fetches requested: path and ref. *)
Definition content_fetches (h : history) : list (string * string) :=
  flat_map (fun e => match e with
                     | EGetContents _ path ref _ => [(path, ref)]
                     | _ => []
                     end) h.

(** The path [main] processes second. *)
Definition second_selected : string := nth 1 fixed_selection EmptyString.

(** What the loop of [main] adds to the history when both files are
    refactored. *)
Definition both_refactored (rp : repo) (key : string)
    (cf1 : content_file) (code1 s1 c1 : string)
    (cf2 : content_file) (code2 s2 c2 : string) : history :=
  (processing first_selected
   :: refactor_trace rp first_selected "master" key cf1 code1 s1 c1
   ++ processing second_selected
   :: refactor_trace rp second_selected "master" key cf2 code2 s2 c2)%list.

(** The line the handler of [main] prints. *)
Definition error_line (e : exn) : event :=
  EPrint ("An error occurred: " ++ exn_str e).

(** The exception a recorded call raised, if it raised. *)
Definition raised (e : event) : option exn :=
  match e with
  | EGetRepo _ (Raise x) | EGetGitTree _ _ _ (Raise x)
  | EGetContents _ _ _ (Raise x) | EChat _ _ (Raise x)
  | EGetBranch _ _ (Raise x) | ECreateGitRef _ _ _ (Raise x)
  | EUpdateFile _ _ _ _ _ _ (Raise x)
  | ECreatePull _ _ _ _ _ (Raise x) => Some x
  | _ => None
  end.

(** No recorded call raised. *)
Definition clean (d : history) : bool :=
  forallb (fun e => match raised e with None => true | Some _ => false end) d.

(** What a computation added to the history [d] and its outcome [r] fit
    a computation that stops at the first call that raises: nothing raised
    if it returned; if it raised [x], either no call raised or the last
    event is the one call that did, and it raised [x]. *)
Definition stops_at_failure {A} (r : result A) (d : history) : Prop :=
  match r with
  | Ok _ => clean d = true
  | Raise x =>
      clean d = true
      \/ exists d0 e, d = (d0 ++ [e])%list /\ clean d0 = true /\ raised e = Some x
  end.

(** A computation that, from any history, stops at the first call that
    raises and re-raises its exception. *)
Definition fail_fast {A} (m : M A) : Prop :=
  forall h r h',
    m h = (r, h') -> exists d, h' = (h ++ d)%list /\ stops_at_failure r d.

(** A world in which the LLM endpoint turns every request down. *)
Definition world_llm_down : world :=
  mkWorld
    (fun _ _ _ => Ok Demo.forked)
    (fun _ _ _ _ => Ok Demo.two_dirs)
    (fun h => List.length h)
    (fun _ _ path _ => Ok (mkContent ("sha-" ++ path) (Ok ("class " ++ path))))
    (fun _ _ _ _ _ => Raise (mkExn "RateLimitError" "rate limited"))
    (fun _ => Demo.noon)
    (fun _ _ _ => Ok "c0ffee")
    (fun _ _ _ _ => Ok tt)
    (fun _ _ _ _ _ _ _ => Ok tt)
    (fun _ _ _ _ _ _ => Ok "https://github.com/sismics/reader/pull/1").

(** A world in which the selected files are not in the repository: every
    content fetch is answered 404. *)
Definition world_file_missing : world :=
  mkWorld
    (fun _ _ _ => Ok Demo.forked)
    (fun _ _ _ _ => Ok Demo.two_dirs)
    (fun h => List.length h)
    (fun _ _ _ _ => Raise (mkExn "UnknownObjectException" "404 Not Found"))
    (fun h _ _ _ _ => Ok ("answer " ++ PyStr.str (List.length h)))
    (fun _ => Demo.noon)
    (fun _ _ _ => Ok "c0ffee")
    (fun _ _ _ _ => Ok tt)
    (fun _ _ _ _ _ _ _ => Ok tt)
    (fun _ _ _ _ _ _ => Ok "https://github.com/sismics/reader/pull/1").

(** ** Laws of the monad *)

(** ** Strings *)

Lemma string_app_assoc (a b c : string) : (a ++ b) ++ c = a ++ (b ++ c).
Proof. induction a as [|x a IH]; simpl; [reflexivity | rewrite IH; reflexivity]. Qed.

Lemma string_length_app (a b : string) :
  String.length (a ++ b) = String.length a + String.length b.
Proof. induction a as [|x a IH]; simpl; [reflexivity | rewrite IH; reflexivity]. Qed.

Lemma string_app_inj_head (a c b d : string) :
  String.length a = String.length c ->
  a ++ b = c ++ d -> a = c /\ b = d.
Proof.
  revert c; induction a as [|x a IH]; intros [|y c] Hl E; simpl in *;
    try discriminate.
  - split; [reflexivity | exact E].
  - injection Hl as Hl. injection E as -> E.
    destruct (IH c Hl E) as [-> ->]. split; reflexivity.
Qed.

Lemma string_app_inv_head (a b d : string) : a ++ b = a ++ d -> b = d.
Proof. intros E. apply (string_app_inj_head a a b d eq_refl E). Qed.

Section MonadLaws.

Context {A B : Type}.

Lemma bind_ok (m : M A) (k : A -> M B) h a h1 :
  m h = (Ok a, h1) -> bind m k h = k a h1.
Proof. unfold bind; intros ->; reflexivity. Qed.

Lemma bind_raise (m : M A) (k : A -> M B) h e h1 :
  m h = (Raise e, h1) -> bind m k h = (Raise e, h1).
Proof. unfold bind; intros ->; reflexivity. Qed.

Lemma bind_inv_ok (m : M A) (k : A -> M B) h b h' :
  bind m k h = (Ok b, h') ->
  exists a h1, m h = (Ok a, h1) /\ k a h1 = (Ok b, h').
Proof.
  unfold bind; destruct (m h) as [[a|e] h1]; intros E.
  - exists a, h1; split; [reflexivity | exact E].
  - discriminate E.
Qed.

Lemma bind_inv_raise (m : M A) (k : A -> M B) h e h' :
  bind m k h = (Raise e, h') ->
  m h = (Raise e, h') \/
  exists a h1, m h = (Ok a, h1) /\ k a h1 = (Raise e, h').
Proof.
  unfold bind; destruct (m h) as [[a|e0] h1]; intros E.
  - right; exists a, h1; split; [reflexivity | exact E].
  - left; injection E as -> ->; reflexivity.
Qed.

End MonadLaws.

Lemma call_ok {A} (o : history -> result A) ev h a :
  o h = Ok a -> call o ev h = (Ok a, (h ++ [ev (Ok a)])%list).
Proof. unfold call; intros ->; reflexivity. Qed.

Lemma print_run (line : string) (h : history) :
  print line h = (Ok tt, (h ++ [EPrint line])%list).
Proof. reflexivity. Qed.

Lemma for_each_print {A} (f : A -> string) (xs : list A) h :
  for_each xs (fun x => print (f x)) h
  = (Ok tt, (h ++ map (fun x => EPrint (f x)) xs)%list).
Proof.
  revert h; induction xs as [|x r IH]; intros h; simpl.
  - rewrite app_nil_r; reflexivity.
  - unfold bind, print, emit at 1. rewrite IH, <- app_assoc. reflexivity.
Qed.

(** ** Repository access *)

(** C4. When [TOKEN] is absent from the environment, or set to the empty
    string, [get_repo] raises its explicit exception and leaves the history
    as it found it: neither the [Github] client is built nor the repository
    looked up. *)
Theorem get_repo_requires_token (w : world) (env : environ) (h : history) :
  env "TOKEN" = None \/ env "TOKEN" = Some EmptyString ->
  get_repo w env h = (Raise token_error, h)
  /\ exn_str token_error
     = "TOKEN and REPOSITORY must be set as environment variables.".
Proof.
  intros [E | E]; unfold get_repo; rewrite E; split; reflexivity.
Qed.

Lemma get_repo_requires_token_witness :
  Demo.env_no_token "TOKEN" = None
  /\ get_repo (Demo.world_of Demo.forked Demo.two_dirs Demo.noon)
       Demo.env_no_token []
     = (Raise token_error, []).
Proof.
  split; [reflexivity|].
  apply (get_repo_requires_token
           (Demo.world_of Demo.forked Demo.two_dirs Demo.noon)
           Demo.env_no_token []).
  left; reflexivity.
Defined.

(** With a non-empty token the client is built first and the repository
    looked up next. *)
Lemma get_repo_with_token (w : world) (env : environ) (h : history) tok :
  env "TOKEN" = Some tok -> tok <> EmptyString ->
  get_repo w env h =
    let r := o_get_repo w (h ++ [EGithub tok])%list tok repo_name in
    match r with
    | Ok rp =>
        (Ok rp, (h ++ [EGithub tok; EGetRepo repo_name r;
                       EPrint ("Connected to GitHub repository: " ++ repo_name)])%list)
    | Raise e => (Raise e, (h ++ [EGithub tok; EGetRepo repo_name r])%list)
    end.
Proof.
  intros E Hne. unfold get_repo. rewrite E.
  assert (Ht : str_truthy tok = true).
  { unfold str_truthy. destruct (String.eqb_spec tok EmptyString); [contradiction|reflexivity]. }
  rewrite Ht. cbn [negb orb]. change (str_truthy repo_name) with true. cbn [negb].
  unfold bind, emit, call, print, emit, ret. cbv zeta.
  destruct (o_get_repo w (h ++ [EGithub tok])%list tok repo_name);
    rewrite <- ?app_assoc; reflexivity.
Qed.

(** ** The pull request *)

(** C6, as the code has it.  [create_pull_request] issues exactly one
    creation call.  For a handle whose fork flag is set and whose parent
    is present, the call goes to the parent with head
    [owner login : branch]; for a handle whose fork flag is clear, or whose
    parent is absent, it goes to the handle's own repository with the bare
    branch name.  Title and base branch are fixed. *)
Theorem create_pull_request_target
    (w : world) (rp : repo) (branch_name pr_body : string) (h : history) :
  (forall up, fork rp = true -> parent rp = Some up ->
     let head := owner_login rp ++ ":" ++ branch_name in
     let r := o_create_pull w h up pr_title pr_body head "master" in
     create_pull_request w rp branch_name pr_body h
     = (r, (h ++ [ECreatePull up pr_title pr_body head "master" r])%list))
  /\ (fork rp = false \/ parent rp = None ->
     let r := o_create_pull w h rp pr_title pr_body branch_name "master" in
     create_pull_request w rp branch_name pr_body h
     = (r, (h ++ [ECreatePull rp pr_title pr_body branch_name "master" r])%list)).
Proof.
  unfold create_pull_request, pull_target, call. split.
  - intros up Hf Hp. rewrite Hf, Hp. reflexivity.
  - intros [Hf | Hp].
    + rewrite Hf. reflexivity.
    + rewrite Hp. destruct (fork rp); reflexivity.
Qed.

Lemma create_pull_request_target_witness :
  pull_calls (snd (create_pull_request
                     (Demo.world_of Demo.forked Demo.two_dirs Demo.noon)
                     Demo.forked "topic" "body" []))
  = [(Demo.upstream, "Sanchit27-jalan:topic", "body")]
  /\ pull_calls (snd (create_pull_request
                        (Demo.world_of Demo.plain Demo.two_dirs Demo.noon)
                        Demo.plain "topic" "body" []))
     = [(Demo.plain, "topic", "body")].
Proof.
  split.
  - rewrite (proj1 (create_pull_request_target
                      (Demo.world_of Demo.forked Demo.two_dirs Demo.noon)
                      Demo.forked "topic" "body" [])
               Demo.upstream eq_refl eq_refl).
    reflexivity.
  - rewrite (proj2 (create_pull_request_target
                      (Demo.world_of Demo.plain Demo.two_dirs Demo.noon)
                      Demo.plain "topic" "body" [])
               (or_introl eq_refl)).
    reflexivity.
Defined.

(** C6, as the claim words it, fails on a handle whose fork flag is set
    while its parent is absent: the call goes to the handle itself, with
    the bare branch name. *)
Lemma fork_without_parent_targets_itself :
  fork Demo.orphan_fork = true
  /\ pull_calls (snd (create_pull_request
                        (Demo.world_of Demo.orphan_fork Demo.two_dirs Demo.noon)
                        Demo.orphan_fork "topic" "body" []))
     = [(Demo.orphan_fork, "topic", "body")]
  /\ "topic" <> owner_login Demo.orphan_fork ++ ":" ++ "topic".
Proof.
  split; [reflexivity|]. split; [reflexivity|]. discriminate.
Qed.

(** ** The outer handler *)

(** C9. Whatever exception the body of [main] raises, [main] itself
    returns normally, the line it printed last is the exception's text
    behind ["An error occurred: "], and the script exits with status 0. *)
Theorem main_catches_every_exception
    (w : world) (env : environ) (year_width : nat) (h : history) :
  (forall e h', main_body w env year_width h = (Raise e, h') ->
     main w env year_width h
     = (Ok tt, (h' ++ [EPrint ("An error occurred: " ++ exn_str e)])%list))
  /\ (exists h', main w env year_width h = (Ok tt, h'))
  /\ fst (run_script w env year_width) = 0.
Proof.
  assert (Hmain : forall h0, exists h', main w env year_width h0 = (Ok tt, h')).
  { intros h0. unfold main, try_except.
    destruct (main_body w env year_width h0) as [[[]|e] h'].
    - exists h'; reflexivity.
    - eexists; reflexivity. }
  split; [|split].
  - intros e h' E. unfold main, try_except. rewrite E. reflexivity.
  - apply Hmain.
  - unfold run_script. destruct (Hmain []) as [h' ->]. reflexivity.
Qed.

Lemma main_catches_every_exception_witness :
  main (Demo.world_of Demo.forked Demo.two_dirs Demo.noon) Demo.env_no_token 4 []
  = (Ok tt,
     [EPrint "An error occurred: TOKEN and REPOSITORY must be set as environment variables."]).
Proof.
  apply (proj1 (main_catches_every_exception
                  (Demo.world_of Demo.forked Demo.two_dirs Demo.noon)
                  Demo.env_no_token 4 []) token_error []).
  reflexivity.
Defined.

(** ** Quiet stretches of a history *)

Lemma quiet_app (a b : history) : quiet a -> quiet b -> quiet (a ++ b)%list.
Proof. unfold quiet; intros Ha Hb; rewrite existsb_app, Ha, Hb; reflexivity. Qed.

Lemma quiet_app_inv (a b : history) : quiet (a ++ b)%list -> quiet a /\ quiet b.
Proof.
  unfold quiet; rewrite existsb_app; intros H.
  apply orb_false_iff in H; exact H.
Qed.

Lemma quiet_prints {A} (f : A -> string) (xs : list A) :
  quiet (map (fun x => EPrint (f x)) xs).
Proof. unfold quiet; induction xs; simpl; auto. Qed.

Lemma quiet_no_calls (h : history) :
  quiet h -> chat_calls h = [] /\ update_calls h = [] /\ pull_calls h = [].
Proof.
  unfold quiet; induction h as [|e h IH]; simpl; [auto|].
  intros H; apply orb_false_iff in H; destruct H as [He Hh].
  destruct (IH Hh) as (I1 & I2 & I3).
  unfold chat_calls, update_calls, pull_calls in *; simpl.
  rewrite I1, I2, I3. destruct e; simpl in He; try discriminate; auto.
Qed.

(** ** The random module *)

Section Random.

Variable w : world.

Lemma randbelow_run (n : nat) (h : history) :
  n <> 0 ->
  exists j, j < n /\ randbelow w n h = (Ok j, (h ++ [ERandBelow n j])%list).
Proof.
  intros Hn. exists (o_random w h mod n). split.
  - apply Nat.mod_upper_bound; exact Hn.
  - reflexivity.
Qed.

Lemma random_choice_run {A} (seq : list A) (h : history) :
  seq <> [] ->
  exists x j, In x seq
    /\ random_choice w seq h
       = (Ok x, (h ++ [ERandBelow (List.length seq) j])%list).
Proof.
  destruct seq as [|d r]; [congruence|]. intros _.
  destruct (randbelow_run (List.length (d :: r)) h) as (j & Hj & E);
    [simpl; lia|].
  exists (nth j (d :: r) d), j. split.
  - apply nth_In; exact Hj.
  - unfold random_choice. rewrite (bind_ok _ _ _ _ _ E). reflexivity.
Qed.

Lemma sample_pool_run {A} (k : nat) :
  forall (pool : list A) (h : history),
  exists l d, quiet d /\ sample_pool w pool k h = (Ok l, (h ++ d)%list).
Proof.
  induction k as [|k IH]; intros pool h.
  - exists [], []. split; [reflexivity|]. simpl. rewrite app_nil_r. reflexivity.
  - destruct pool as [|x r].
    + exists [], []. split; [reflexivity|]. simpl. rewrite app_nil_r. reflexivity.
    + destruct (randbelow_run (List.length (x :: r)) h) as (j & Hj & E);
        [simpl; lia|].
      set (pool' := firstn (List.length (x :: r) - 1)
                      (list_set (x :: r) j (last (x :: r) x))).
      destruct (IH pool' (h ++ [ERandBelow (List.length (x :: r)) j])%list)
        as (l & d & Hq & El).
      exists (nth j (x :: r) x :: l), (ERandBelow (List.length (x :: r)) j :: d).
      split.
      * unfold quiet in *; simpl; exact Hq.
      * change (sample_pool w (x :: r) (S k) h)
          with (bind (randbelow w (List.length (x :: r)))
                  (fun j0 =>
                     bind (sample_pool w
                             (firstn (List.length (x :: r) - 1)
                                (list_set (x :: r) j0 (last (x :: r) x))) k)
                       (fun rest => ret (nth j0 (x :: r) x :: rest))) h).
        rewrite (bind_ok _ _ _ _ _ E).
        fold pool'. rewrite (bind_ok _ _ _ _ _ El).
        unfold ret. rewrite <- app_assoc. reflexivity.
Qed.

Lemma random_sample_run {A} (population : list A) (k : Z) (h : history) :
  (0 <= k <= Z.of_nat (List.length population))%Z ->
  exists l d, quiet d
    /\ random_sample w population k h = (Ok l, (h ++ d)%list).
Proof.
  intros [H0 H1]. unfold random_sample.
  apply Z.leb_le in H0. apply Z.leb_le in H1. rewrite H0, H1. simpl.
  apply sample_pool_run.
Qed.

Lemma random_sample_negative {A} (population : list A) (k : Z) (h : history) :
  (k < 0)%Z ->
  random_sample w population k h
  = (Raise (ValueError "Sample larger than population or is negative"), h).
Proof.
  intros Hk. unfold random_sample.
  apply Z.leb_gt in Hk. rewrite Hk. reflexivity.
Qed.

End Random.

(** ** Grouping the tree by directory *)

Lemma dict_set_nonempty {V} (d : Dict.t V) k v : Dict.set d k v <> [].
Proof.
  destruct d as [|[k' v'] r]; simpl; [discriminate|].
  destruct (String.eqb k' k); discriminate.
Qed.

Lemma dict_get_of_key {V} (d : Dict.t V) k :
  In k (Dict.keys d) -> exists v, Dict.get d k = Some v.
Proof.
  induction d as [|[k' v'] r IH]; simpl; [contradiction|].
  intros [E | Hin].
  - subst k'. rewrite String.eqb_refl. eauto.
  - destruct (String.eqb k' k); eauto.
Qed.

Lemma group_item_skip (d : Dict.t (list string)) (item : tree_item) :
  String.eqb (item_type item) "blob"
  && PyStr.endswith (item_path item) ".java" = false ->
  group_item d item = d.
Proof. unfold group_item; intros ->; reflexivity. Qed.

Lemma group_item_nonempty_keep (d : Dict.t (list string)) (item : tree_item) :
  d <> [] -> group_item d item <> [].
Proof.
  intros Hd. unfold group_item.
  destruct (String.eqb (item_type item) "blob"
            && PyStr.endswith (item_path item) ".java"); [|exact Hd].
  set (k := PyStr.dirname (item_path item)).
  destruct (Dict.mem d k).
  - destruct (Dict.get d k); [apply dict_set_nonempty | exact Hd].
  - destruct (Dict.get (Dict.set d k []) k);
      apply dict_set_nonempty.
Qed.

Lemma group_item_take (d : Dict.t (list string)) (item : tree_item) :
  String.eqb (item_type item) "blob"
  && PyStr.endswith (item_path item) ".java" = true ->
  group_item d item <> [].
Proof.
  intros Hc. unfold group_item. rewrite Hc.
  set (k := PyStr.dirname (item_path item)).
  destruct (Dict.mem d k) eqn:Hm.
  - destruct (Dict.get d k) eqn:Hg; [apply dict_set_nonempty|].
    unfold Dict.mem in Hm. rewrite Hg in Hm. discriminate.
  - destruct (Dict.get (Dict.set d k []) k);
      apply dict_set_nonempty.
Qed.

Lemma fold_group_nonempty (tree : list tree_item) :
  forall d, d <> [] -> fold_left group_item tree d <> [].
Proof.
  induction tree as [|item r IH]; intros d Hd; simpl; [exact Hd|].
  apply IH, group_item_nonempty_keep, Hd.
Qed.

Lemma group_by_dir_no_match (tree : list tree_item) :
  java_blobs tree = [] -> group_by_dir tree = [].
Proof.
  unfold group_by_dir. generalize (@nil (string * list string)).
  induction tree as [|item r IH]; intros d H; simpl; [reflexivity|].
  simpl in H.
  destruct (String.eqb (item_type item) "blob"
            && PyStr.endswith (item_path item) ".java") eqn:Hc;
    [discriminate|].
  rewrite (group_item_skip _ _ Hc). apply IH, H.
Qed.

Lemma fold_group_match (tree : list tree_item) :
  forall d, java_blobs tree <> [] -> fold_left group_item tree d <> [].
Proof.
  induction tree as [|item r IH]; intros d H; simpl; [simpl in H; congruence|].
  simpl in H.
  destruct (String.eqb (item_type item) "blob"
            && PyStr.endswith (item_path item) ".java") eqn:Hc.
  - apply fold_group_nonempty, group_item_take, Hc.
  - rewrite (group_item_skip _ _ Hc). apply IH, H.
Qed.

Lemma group_by_dir_match (tree : list tree_item) :
  java_blobs tree <> [] -> group_by_dir tree <> [].
Proof. apply fold_group_match. Qed.

(** ** The file selector *)

Section Selector.

Variable w : world.
Variables (rp : repo) (branch : option string) (count : Z) (h : history).
Variable tree : list tree_item.

Hypothesis listing :
  o_get_git_tree w h rp (branch_of rp branch) true = Ok tree.

Let listed : history :=
  (h ++ [EGetGitTree rp (branch_of rp branch) true (Ok tree)])%list.

Lemma pick_files_lists :
  pick_files w rp branch count h
  = match group_by_dir tree with
    | [] => (Ok [], listed)
    | _ :: _ =>
        bind (random_choice w (Dict.keys (group_by_dir tree)))
          (fun target_dir =>
             bind (match Dict.get (group_by_dir tree) target_dir with
                   | Some l => ret l
                   | None => raise (KeyError target_dir)
                   end)
               (fun files_in_dir =>
                  bind (random_sample w files_in_dir
                          (Z.min count (Z.of_nat (List.length files_in_dir))))
                    (fun _ =>
                       bind (print ("Selected files from directory '"
                                    ++ target_dir ++ "':"))
                         (fun _ =>
                            bind (for_each fixed_selection
                                    (fun f => print (" - " ++ f)))
                              (fun _ => ret fixed_selection))))) listed
    end.
Proof.
  unfold pick_files. fold (branch_of rp branch).
  rewrite (bind_ok _ _ _ _ _ (call_ok _ _ _ _ listing)). fold listed.
  destruct (group_by_dir tree); reflexivity.
Qed.

Lemma pick_files_empty :
  java_blobs tree = [] -> pick_files w rp branch count h = (Ok [], listed).
Proof.
  intros H. rewrite pick_files_lists, (group_by_dir_no_match _ H). reflexivity.
Qed.

(** After a listing with a matching blob, the directory is drawn; what
    happens next depends on the sign of [count] only. *)
Lemma pick_files_draws :
  java_blobs tree <> [] ->
  exists target_dir files_in_dir j,
    Dict.get (group_by_dir tree) target_dir = Some files_in_dir
    /\ pick_files w rp branch count h
       = bind (random_sample w files_in_dir
                 (Z.min count (Z.of_nat (List.length files_in_dir))))
           (fun _ =>
              bind (print ("Selected files from directory '"
                           ++ target_dir ++ "':"))
                (fun _ =>
                   bind (for_each fixed_selection
                           (fun f => print (" - " ++ f)))
                     (fun _ => ret fixed_selection)))
           (listed ++ [ERandBelow (List.length (Dict.keys (group_by_dir tree))) j])%list.
Proof.
  intros H. rewrite pick_files_lists.
  pose proof (group_by_dir_match _ H) as Hg.
  destruct (group_by_dir tree) as [|p r] eqn:G; [congruence|].
  destruct (random_choice_run w (Dict.keys (p :: r)) listed)
    as (x & j & Hin & E); [destruct p; discriminate|].
  destruct (dict_get_of_key _ _ Hin) as (v & Hv).
  exists x, v, j. split; [exact Hv|].
  rewrite (bind_ok _ _ _ _ _ E). rewrite Hv.
  reflexivity.
Qed.

Lemma pick_files_override :
  java_blobs tree <> [] -> (0 <= count)%Z ->
  exists d, quiet d
    /\ pick_files w rp branch count h = (Ok fixed_selection, (listed ++ d)%list).
Proof.
  intros H Hc.
  destruct (pick_files_draws H) as (dir & files & j & _ & E).
  set (h1 := (listed ++ [ERandBelow (List.length (Dict.keys (group_by_dir tree))) j])%list)
    in E.
  destruct (random_sample_run w files
              (Z.min count (Z.of_nat (List.length files))) h1)
    as (l & d & Hq & Es); [lia|].
  exists ([ERandBelow (List.length (Dict.keys (group_by_dir tree))) j] ++ d
          ++ [EPrint ("Selected files from directory '" ++ dir ++ "':")]
          ++ map (fun f => EPrint (" - " ++ f)) fixed_selection)%list.
  split.
  - apply quiet_app; [reflexivity|].
    apply quiet_app; [exact Hq|].
    apply quiet_app; [reflexivity|]. apply quiet_prints.
  - rewrite E, (bind_ok _ _ _ _ _ Es).
    rewrite (bind_ok _ _ _ _ _ (print_run _ _)).
    rewrite (bind_ok _ _ _ _ _ (for_each_print _ _ _)).
    unfold ret, h1. rewrite <- !app_assoc. reflexivity.
Qed.

Lemma pick_files_negative :
  java_blobs tree <> [] -> (count < 0)%Z ->
  exists d, quiet d
    /\ pick_files w rp branch count h
       = (Raise (ValueError "Sample larger than population or is negative"),
          (listed ++ d)%list).
Proof.
  intros H Hc.
  destruct (pick_files_draws H) as (dir & files & j & _ & E).
  eexists. split; [|rewrite E; apply bind_raise, random_sample_negative; lia].
  reflexivity.
Qed.

End Selector.

(** Whatever the world answers, [pick_files] only lists, draws and prints,
    and a selection it returns is empty or the fixed pair. *)
Lemma pick_files_inv (w : world) rp branch count h r h' :
  pick_files w rp branch count h = (r, h') ->
  exists d, h' = (h ++ d)%list /\ quiet d
    /\ forall sel, r = Ok sel -> sel = [] \/ sel = fixed_selection.
Proof.
  intros E.
  destruct (o_get_git_tree w h rp (branch_of rp branch) true) as [tree|e] eqn:L.
  - destruct (java_blobs tree) as [|b bs] eqn:J.
    + rewrite (pick_files_empty w rp branch count h tree L J) in E.
      injection E as <- <-. eexists; split; [reflexivity|].
      split; [reflexivity|]. intros sel [= <-]; auto.
    + assert (Hj : java_blobs tree <> []) by (rewrite J; discriminate).
      destruct (Z_lt_le_dec count 0) as [Hneg | Hpos].
      * destruct (pick_files_negative w rp branch count h tree L Hj Hneg)
          as (d & Hq & E').
        rewrite E' in E. injection E as <- <-.
        eexists; split; [rewrite <- app_assoc; reflexivity|].
        split; [apply quiet_app; [reflexivity | exact Hq]|]. discriminate.
      * destruct (pick_files_override w rp branch count h tree L Hj Hpos)
          as (d & Hq & E').
        rewrite E' in E. injection E as <- <-.
        eexists; split; [rewrite <- app_assoc; reflexivity|].
        split; [apply quiet_app; [reflexivity | exact Hq]|].
        intros sel [= <-]; auto.
  - unfold pick_files in E. fold (branch_of rp branch) in E.
    unfold bind, call in E. rewrite L in E. injection E as <- <-.
    eexists; split; [reflexivity|]. split; [reflexivity|]. discriminate.
Qed.

Lemma get_repo_connects (w : world) (env : environ) (h : history) tok rp :
  env "TOKEN" = Some tok -> tok <> EmptyString ->
  o_get_repo w (h ++ [EGithub tok])%list tok repo_name = Ok rp ->
  get_repo w env h = (Ok rp, (h ++ connected tok rp)%list).
Proof.
  intros E Hne Ho. rewrite (get_repo_with_token w env h tok E Hne).
  cbv zeta. rewrite Ho. reflexivity.
Qed.

(** C2, as the code has it.  For a listing with at least one [.java]
    blob and a [count] that is not negative, [pick_files] returns the fixed
    pair of paths, whatever the random draws, the rest of the tree and the
    value of [count]. *)
Theorem pick_files_returns_fixed_pair
    (w : world) (rp : repo) (branch : option string) (count : Z)
    (h : history) (tree : list tree_item) :
  o_get_git_tree w h rp (branch_of rp branch) true = Ok tree ->
  java_blobs tree <> [] ->
  (0 <= count)%Z ->
  exists h',
    pick_files w rp branch count h
    = (Ok [ "reader-core/src/main/java/com/sismics/reader/core/dao/file/rss/RssReader.java";
            "reader-core/src/main/java/com/sismics/reader/core/service/FeedService.java" ],
       h').
Proof.
  intros L J C.
  destruct (pick_files_override w rp branch count h tree L J C) as (d & _ & E).
  eexists; exact E.
Qed.

Lemma pick_files_returns_fixed_pair_witness :
  exists h',
    pick_files (Demo.world_of Demo.forked Demo.two_dirs Demo.noon)
      Demo.forked None 0 []
    = (Ok fixed_selection, h').
Proof.
  apply (pick_files_returns_fixed_pair
           (Demo.world_of Demo.forked Demo.two_dirs Demo.noon)
           Demo.forked None 0 [] Demo.two_dirs).
  - reflexivity.
  - vm_compute; discriminate.
  - lia.
Defined.

(** C2, as the claim words it, fails for a negative [count]: the sample
    is drawn before the override and rejects the size. *)
Lemma pick_files_negative_count_raises :
  java_blobs Demo.two_dirs <> []
  /\ fst (pick_files (Demo.world_of Demo.forked Demo.two_dirs Demo.noon)
            Demo.forked (Some "master") (-1) [])
     = Raise (ValueError "Sample larger than population or is negative")
  /\ fst (pick_files (Demo.world_of Demo.forked Demo.two_dirs Demo.noon)
            Demo.forked (Some "master") (-1) [])
     <> Ok fixed_selection.
Proof.
  split; [vm_compute; discriminate|].
  split; [vm_compute; reflexivity | vm_compute; discriminate].
Qed.

(** C1, what the code does instead.  For a listing with at least one
    [.java] blob and a [count] that is not negative, the selection
    returned has two paths that share no parent directory, and is longer
    than [count] whenever [count] is below two. *)
Theorem pick_files_ignores_directory_and_count
    (w : world) (rp : repo) (branch : option string) (count : Z)
    (h : history) (tree : list tree_item) :
  o_get_git_tree w h rp (branch_of rp branch) true = Ok tree ->
  java_blobs tree <> [] ->
  (0 <= count)%Z ->
  exists sel h',
    pick_files w rp branch count h = (Ok sel, h')
    /\ (forall dir, ~ Forall (fun f => PyStr.dirname f = dir) sel)
    /\ ((count < 2)%Z -> (count < Z.of_nat (List.length sel))%Z).
Proof.
  intros L J C.
  destruct (pick_files_override w rp branch count h tree L J C) as (d & _ & E).
  exists fixed_selection. eexists. split; [exact E|]. split.
  - intros dir HF. unfold fixed_selection in HF.
    apply Forall_cons_iff in HF; destruct HF as [H1 HF].
    apply Forall_cons_iff in HF; destruct HF as [H2 _].
    rewrite <- H2 in H1. vm_compute in H1. discriminate H1.
  - intros Hlt. simpl. lia.
Qed.

Lemma pick_files_ignores_directory_and_count_witness :
  Dict.keys (group_by_dir Demo.two_dirs) = ["a"; "b"]
  /\ exists sel h',
       pick_files (Demo.world_of Demo.forked Demo.two_dirs Demo.noon)
         Demo.forked (Some "master") 1 []
       = (Ok sel, h')
       /\ (forall dir, ~ Forall (fun f => PyStr.dirname f = dir) sel)
       /\ ((1 < 2)%Z -> (1 < Z.of_nat (List.length sel))%Z).
Proof.
  split; [reflexivity|].
  apply (pick_files_ignores_directory_and_count
           (Demo.world_of Demo.forked Demo.two_dirs Demo.noon)
           Demo.forked (Some "master") 1 [] Demo.two_dirs).
  - reflexivity.
  - vm_compute; discriminate.
  - lia.
Defined.

(** C3. On a listing without any [.java] blob, [pick_files] returns the
    empty list after the listing call alone; and a run of [main] that
    connected and got such a listing prints the "no eligible files" line
    and ends there: no LLM client or chat call, no branch creation, no
    file update, no pull request. *)
Theorem no_matching_files_stops_the_run
    (w : world) (env : environ) (year_width : nat) (tree : list tree_item) :
  java_blobs tree = [] ->
  (forall rp branch count h,
     o_get_git_tree w h rp (branch_of rp branch) true = Ok tree ->
     pick_files w rp branch count h
     = (Ok [], (h ++ [EGetGitTree rp (branch_of rp branch) true (Ok tree)])%list))
  /\ (forall tok rp,
        env "TOKEN" = Some tok -> tok <> EmptyString ->
        o_get_repo w [EGithub tok] tok repo_name = Ok rp ->
        o_get_git_tree w (connected tok rp) rp "master" true = Ok tree ->
        let run :=
          (connected tok rp
           ++ [ EGetGitTree rp "master" true (Ok tree);
                EPrint "No eligible files found for refactoring." ])%list in
        main w env year_width [] = (Ok tt, run) /\ quiet run).
Proof.
  intros J. split.
  - intros rp branch count h L. apply (pick_files_empty w rp branch count h tree L J).
  - intros tok rp Et Hne Hr L run. split; [|reflexivity].
    unfold main, try_except, main_body.
    rewrite (bind_ok _ _ _ _ _ (get_repo_connects w env [] tok rp Et Hne Hr)).
    rewrite (bind_ok _ _ _ _ _
               (pick_files_empty w rp (Some "master") 2 _ tree L J)).
    reflexivity.
Qed.

Lemma no_matching_files_stops_the_run_witness :
  java_blobs Demo.no_java = []
  /\ main (Demo.world_of Demo.forked Demo.no_java Demo.noon) Demo.env_full 4 []
     = (Ok tt,
        (connected "ghp_token" Demo.forked
         ++ [ EGetGitTree Demo.forked "master" true (Ok Demo.no_java);
              EPrint "No eligible files found for refactoring." ])%list).
Proof.
  split; [reflexivity|].
  apply (proj2 (no_matching_files_stops_the_run
                  (Demo.world_of Demo.forked Demo.no_java Demo.noon)
                  Demo.env_full 4 Demo.no_java eq_refl)
           "ghp_token" Demo.forked);
    [reflexivity | discriminate | reflexivity | reflexivity].
Defined.

(** ** The refactor requester *)

Lemma call_openai_run (w : world) (env : environ) key prompt role h :
  env "OPENAI_KEY" = Some key ->
  call_openai w env prompt role h
  = let r := o_chat w (h ++ llm_request key role prompt)%list
               openrouter_url key openai_model (chat_messages prompt role) in
    (r, (h ++ llm_request key role prompt ++ [llm_answer role prompt r])%list).
Proof.
  intros E. unfold call_openai.
  rewrite (bind_ok _ _ _ _ _ (print_run _ _)). rewrite E.
  unfold bind, ret, emit, call, llm_request, llm_answer, banner. cbv zeta.
  rewrite <- !app_assoc. reflexivity.
Qed.

Lemma call_openai_without_key (w : world) (env : environ) prompt role h :
  env "OPENAI_KEY" = None ->
  call_openai w env prompt role h
  = (Raise (KeyError "OPENAI_KEY"), (h ++ [EPrint (banner role prompt)])%list).
Proof.
  intros E. unfold call_openai.
  rewrite (bind_ok _ _ _ _ _ (print_run _ _)). rewrite E.
  reflexivity.
Qed.

(** [refactor_file_with_llm] for any callback: the content fetch, the
    callback on the first prompt, the callback on the second prompt, and
    nothing else. *)
Lemma refactor_file_with_llm_run
    (w : world) rp file_path branch (cb : string -> string -> M string)
    llm_name h cf code r1 r2 h2 h3 :
  o_get_contents w h rp file_path branch = Ok cf ->
  cf_text cf = Ok code ->
  cb (prompt_design_smells code) smell_role
     (h ++ [EGetContents rp file_path branch (Ok cf)])%list = (Ok r1, h2) ->
  cb (prompt_refactor r1 code) refactor_role h2 = (Ok r2, h3) ->
  refactor_file_with_llm w rp file_path branch cb llm_name h
  = (Ok (r1, r2, llm_name), h3).
Proof.
  intros Hc Ht H1 H2. unfold refactor_file_with_llm.
  rewrite (bind_ok _ _ _ _ _ (call_ok _ _ _ _ Hc)).
  unfold lift. rewrite Ht.
  change (bind (fun h0 : history => (Ok code, h0)) ?k ?x) with (k code x).
  unfold bind at 1. fold smell_role. rewrite H1.
  unfold bind at 1. fold refactor_role. rewrite H2.
  reflexivity.
Qed.

(** The same over [call_openai], with the history it leaves. *)
Lemma refactor_with_openai_run
    (w : world) (env : environ) (rp : repo)
    (file_path branch llm_name key : string) (h : history)
    (cf : content_file) (code r1 r2 : string) :
  env "OPENAI_KEY" = Some key ->
  o_get_contents w h rp file_path branch = Ok cf ->
  cf_text cf = Ok code ->
  let p1 := prompt_design_smells code in
  let h1 := (h ++ EGetContents rp file_path branch (Ok cf)
               :: llm_request key smell_role p1)%list in
  o_chat w h1 openrouter_url key openai_model (chat_messages p1 smell_role)
  = Ok r1 ->
  let p2 := prompt_refactor r1 code in
  let h2 := (h1 ++ llm_answer smell_role p1 (Ok r1)
                :: llm_request key refactor_role p2)%list in
  o_chat w h2 openrouter_url key openai_model (chat_messages p2 refactor_role)
  = Ok r2 ->
  refactor_file_with_llm w rp file_path branch (call_openai w env) llm_name h
  = (Ok (r1, r2, llm_name),
     (h ++ refactor_trace rp file_path branch key cf code r1 r2)%list).
Proof.
  intros Ek Hc Ht p1 h1 H1 p2 h2 H2.
  apply (refactor_file_with_llm_run w rp file_path branch (call_openai w env)
           llm_name h cf code r1 r2
           (h1 ++ [llm_answer smell_role p1 (Ok r1)])%list).
  - exact Hc.
  - exact Ht.
  - rewrite (call_openai_run w env key _ _ _ Ek). cbv zeta.
    unfold h1 in *. fold p1. rewrite <- !app_assoc in *. simpl in *.
    rewrite H1. reflexivity.
  - rewrite (call_openai_run w env key _ _ _ Ek). cbv zeta.
    unfold h2, h1 in *. fold p2. rewrite <- !app_assoc in *. simpl in *.
    rewrite H2. reflexivity.
Qed.

(** C7, as the code has it.  When the content is fetched and decoded,
    [OPENAI_KEY] is set and both chat calls are answered,
    [refactor_file_with_llm] over [call_openai] issues exactly two chat
    calls, in this order.  The first asks, in the role of the design smell
    finder, to analyze the original code for design smells and the listed
    metrics and to give a brief summary; the second asks, in the role of
    the refactoring expert, to refactor the original code on the basis of
    the first answer and to return only the complete new file content.
    The function returns the first answer as the smell report and the
    second as the refactored content, with the name it was given. *)
Theorem refactor_issues_two_llm_calls
    (w : world) (env : environ) (rp : repo)
    (file_path branch llm_name key : string) (h : history)
    (cf : content_file) (code r1 r2 : string) :
  env "OPENAI_KEY" = Some key ->
  o_get_contents w h rp file_path branch = Ok cf ->
  cf_text cf = Ok code ->
  let p1 := prompt_design_smells code in
  let h1 := (h ++ EGetContents rp file_path branch (Ok cf)
               :: llm_request key smell_role p1)%list in
  o_chat w h1 openrouter_url key openai_model (chat_messages p1 smell_role)
  = Ok r1 ->
  let p2 := prompt_refactor r1 code in
  let h2 := (h1 ++ llm_answer smell_role p1 (Ok r1)
                :: llm_request key refactor_role p2)%list in
  o_chat w h2 openrouter_url key openai_model (chat_messages p2 refactor_role)
  = Ok r2 ->
  let d := refactor_trace rp file_path branch key cf code r1 r2 in
  refactor_file_with_llm w rp file_path branch (call_openai w env) llm_name h
  = (Ok (r1, r2, llm_name), (h ++ d)%list)
  /\ chat_calls d
     = [ ([ mkMsg "system" "You are a helpful assistant.";
            mkMsg "user"
              ("Design Smell Finder: "
               ++ "Analyze the following code for design smells and code quality metrics including:"
               ++ nl ++ "- Cyclomatic complexity"
               ++ nl ++ "- Lines of code"
               ++ nl ++ "- Method length"
               ++ nl ++ "- Class coupling"
               ++ nl ++ "- Number of parameters"
               ++ nl ++ "- Depth of inheritance"
               ++ nl ++ "List any issues found and provide recommendations for improvement:"
               ++ nl ++ nl
               ++ code ++ nl ++ nl
               ++ "Please provide a brief summary focusing on the most critical issues and metrics that exceed common thresholds.") ],
          Ok r1);
         ([ mkMsg "system" "You are a helpful assistant.";
            mkMsg "user"
              ("Refactoring Expert: "
               ++ "Based on the following detected design smells:" ++ nl
               ++ r1 ++ nl ++ nl
               ++ "Refactor the code below to address these issues and improve code quality. "
               ++ "Return only the complete new file content:" ++ nl ++ nl
               ++ code) ],
          Ok r2) ].
Proof.
  intros Ek Hc Ht p1 h1 H1 p2 h2 H2 d. split.
  - apply (refactor_with_openai_run w env rp file_path branch llm_name key h
             cf code r1 r2 Ek Hc Ht H1 H2).
  - unfold d, refactor_trace, llm_request, llm_answer.
    cbn [chat_calls flat_map app].
    unfold chat_messages, smell_role, refactor_role,
      prompt_design_smells, prompt_refactor.
    reflexivity.
Qed.

Lemma refactor_issues_two_llm_calls_witness :
  fst (refactor_file_with_llm
         (Demo.world_of Demo.forked Demo.two_dirs Demo.noon)
         Demo.forked "A.java" "master"
         (call_openai (Demo.world_of Demo.forked Demo.two_dirs Demo.noon)
                      Demo.env_full)
         "OpenAI" [])
  = Ok ("answer 3", "answer 6", "OpenAI").
Proof.
  refine (f_equal fst
            (proj1 (refactor_issues_two_llm_calls
                      (Demo.world_of Demo.forked Demo.two_dirs Demo.noon)
                      Demo.env_full Demo.forked "A.java" "master" "OpenAI"
                      "sk-key" []
                      (mkContent "sha-A.java" (Ok "class A.java"))
                      "class A.java" "answer 3" "answer 6"
                      eq_refl eq_refl eq_refl eq_refl eq_refl))).
Defined.

(** C7, as the claim words it, fails when a call raises: with the LLM
    endpoint down the function issues one chat call and raises, and
    without the key it issues none. *)
Lemma refactor_issues_fewer_calls_on_failure :
  List.length
    (chat_calls
       (snd (refactor_file_with_llm world_llm_down Demo.forked
               first_selected "master"
               (call_openai world_llm_down Demo.env_full) "OpenAI" [])))
  = 1
  /\ fst (refactor_file_with_llm world_llm_down Demo.forked
            first_selected "master"
            (call_openai world_llm_down Demo.env_full) "OpenAI" [])
     = Raise (mkExn "RateLimitError" "rate limited")
  /\ chat_calls
       (snd (refactor_file_with_llm
               (Demo.world_of Demo.forked Demo.two_dirs Demo.noon) Demo.forked
               first_selected "master"
               (call_openai (Demo.world_of Demo.forked Demo.two_dirs Demo.noon)
                  Demo.env_no_key)
               "OpenAI" []))
     = [].
Proof. repeat split. Qed.

(** ** The timestamp of the branch name *)

Lemma parse_nat_zeros (k : nat) (s : string) :
  PyStr.parse_nat (PyStr.zeros k ++ s) = PyStr.parse_nat s.
Proof.
  induction k as [|k IH]; [reflexivity|].
  unfold PyStr.parse_nat in *. simpl.
  destruct (DecimalString.NilEmpty.uint_of_string (PyStr.zeros k ++ s)) as [u|];
    destruct (DecimalString.NilEmpty.uint_of_string s) as [u0|];
    simpl; try discriminate IH; [|reflexivity].
  change (Nat.of_uint (Decimal.D0 u)) with (Nat.of_uint u). exact IH.
Qed.

Lemma parse_nat_str (n : nat) : PyStr.parse_nat (PyStr.str n) = Some n.
Proof.
  unfold PyStr.parse_nat, PyStr.str, DecimalString.NilZero.string_of_uint.
  pose proof (DecimalNat.Unsigned.of_to n) as Hn.
  destruct (Nat.to_uint n) as [|u|u|u|u|u|u|u|u|u|u] eqn:E;
    try (rewrite DecimalString.NilEmpty.usu; rewrite Hn; reflexivity).
  simpl. rewrite <- Hn. reflexivity.
Qed.

Lemma parse_nat_zfill (width n : nat) :
  PyStr.parse_nat (PyStr.zfill width (PyStr.str n)) = Some n.
Proof. unfold PyStr.zfill. rewrite parse_nat_zeros. apply parse_nat_str. Qed.

Lemma zfill_inj (width a b : nat) :
  PyStr.zfill width (PyStr.str a) = PyStr.zfill width (PyStr.str b) -> a = b.
Proof.
  intros E. apply (f_equal PyStr.parse_nat) in E.
  rewrite !parse_nat_zfill in E. injection E as E. exact E.
Qed.

Lemma zfill2_length (n : nat) :
  n < 100 -> String.length (PyStr.zfill 2 (PyStr.str n)) = 2.
Proof.
  intros Hn.
  assert (H : forallb (fun k => Nat.eqb (String.length (PyStr.zfill 2 (PyStr.str k))) 2)
                (seq 0 100) = true) by (vm_compute; reflexivity).
  rewrite forallb_forall in H.
  apply Nat.eqb_eq, H, in_seq. lia.
Qed.

Section Strftime.

Variable year_width : nat.

Lemma strftime_compact_inj (d1 d2 : datetime) :
  valid_datetime d1 -> valid_datetime d2 ->
  strftime_compact year_width d1 = strftime_compact year_width d2 ->
  to_the_second d1 = to_the_second d2.
Proof.
  intros (_ & Hm1 & Hd1 & HH1 & HM1 & HS1 & _) (_ & Hm2 & Hd2 & HH2 & HM2 & HS2 & _) E.
  unfold strftime_compact in E.
  assert (L : forall n, n < 100 -> String.length (PyStr.zfill 2 (PyStr.str n)) = 2)
    by apply zfill2_length.
  assert (Hlen : String.length (PyStr.zfill year_width (PyStr.str (dt_year d1)))
                 = String.length (PyStr.zfill year_width (PyStr.str (dt_year d2)))).
  { apply (f_equal String.length) in E.
    rewrite !string_length_app in E.
    rewrite !L in E by lia. lia. }
  apply string_app_inj_head in E; [|exact Hlen]. destruct E as [Ey E].
  apply string_app_inj_head in E; [|rewrite !L by lia; reflexivity].
  destruct E as [Em E].
  apply string_app_inj_head in E; [|rewrite !L by lia; reflexivity].
  destruct E as [Ed E].
  apply string_app_inj_head in E; [|rewrite !L by lia; reflexivity].
  destruct E as [EH E].
  apply string_app_inj_head in E; [|rewrite !L by lia; reflexivity].
  destruct E as [EM ES].
  apply zfill_inj in Ey, Em, Ed, EH, EM, ES.
  unfold to_the_second. congruence.
Qed.

Variable w : world.

Lemma apply_refactorings_returns_name rp files_updates h b h' :
  apply_refactorings_to_files w year_width rp files_updates h = (Ok b, h') ->
  b = branch_prefix ++ strftime_compact year_width (o_now w h).
Proof.
  unfold apply_refactorings_to_files.
  change (bind (ask (o_now w) ENow) ?k h)
    with (k (o_now w h) (h ++ [ENow (o_now w h)])%list).
  cbv beta zeta. intros E.
  apply bind_inv_ok in E. destruct E as (sha & h1 & _ & E).
  apply bind_inv_ok in E. destruct E as (? & h2 & _ & E).
  apply bind_inv_ok in E. destruct E as (? & h3 & _ & E).
  apply bind_inv_ok in E. destruct E as (? & h4 & _ & E).
  unfold ret in E. injection E as E _. symmetry. exact E.
Qed.

End Strftime.

(** C5. Two calls of [apply_refactorings_to_files] that return, made at
    clock readings that differ once truncated to whole seconds, return
    names of the form ["openai-refactor-"] followed by the [%Y%m%d%H%M%S]
    rendering of the reading, and the two names differ. *)
Theorem branch_names_differ_across_seconds
    (w1 w2 : world) (year_width : nat) (rp1 rp2 : repo)
    (files1 files2 : Dict.t string) (h1 h2 h1' h2' : history)
    (b1 b2 : string) :
  valid_datetime (o_now w1 h1) -> valid_datetime (o_now w2 h2) ->
  to_the_second (o_now w1 h1) <> to_the_second (o_now w2 h2) ->
  apply_refactorings_to_files w1 year_width rp1 files1 h1 = (Ok b1, h1') ->
  apply_refactorings_to_files w2 year_width rp2 files2 h2 = (Ok b2, h2') ->
  b1 = "openai-refactor-" ++ strftime_compact year_width (o_now w1 h1)
  /\ b2 = "openai-refactor-" ++ strftime_compact year_width (o_now w2 h2)
  /\ b1 <> b2.
Proof.
  intros V1 V2 Hd E1 E2.
  apply apply_refactorings_returns_name in E1, E2.
  split; [exact E1|]. split; [exact E2|].
  intros Eb. apply Hd. rewrite E1, E2 in Eb.
  apply string_app_inv_head in Eb.
  apply (strftime_compact_inj year_width _ _ V1 V2 Eb).
Qed.

Lemma branch_names_differ_across_seconds_witness :
  fst (apply_refactorings_to_files
         (Demo.world_of Demo.forked Demo.two_dirs Demo.noon) 4
         Demo.forked [("A.java", "class A {}")] [])
  = Ok "openai-refactor-20250309120007"
  /\ fst (apply_refactorings_to_files
            (Demo.world_of Demo.forked Demo.two_dirs Demo.noon_later) 4
            Demo.forked [("A.java", "class A {}")] [])
     = Ok "openai-refactor-20250309120008"
  /\ "openai-refactor-20250309120007" <> "openai-refactor-20250309120008".
Proof.
  split; [reflexivity|]. split; [reflexivity|].
  refine (proj2 (proj2
    (branch_names_differ_across_seconds
       (Demo.world_of Demo.forked Demo.two_dirs Demo.noon)
       (Demo.world_of Demo.forked Demo.two_dirs Demo.noon_later) 4
       Demo.forked Demo.forked
       [("A.java", "class A {}")] [("A.java", "class A {}")] [] []
       (snd (apply_refactorings_to_files
               (Demo.world_of Demo.forked Demo.two_dirs Demo.noon) 4
               Demo.forked [("A.java", "class A {}")] []))
       (snd (apply_refactorings_to_files
               (Demo.world_of Demo.forked Demo.two_dirs Demo.noon_later) 4
               Demo.forked [("A.java", "class A {}")] []))
       "openai-refactor-20250309120007" "openai-refactor-20250309120008"
       _ _ _ eq_refl eq_refl))).
  - repeat split; apply Nat.leb_le; reflexivity.
  - repeat split; apply Nat.leb_le; reflexivity.
  - discriminate.
Defined.

(** ** Projections of a history over concatenation *)

Lemma chat_calls_app (a b : history) :
  chat_calls (a ++ b)%list = (chat_calls a ++ chat_calls b)%list.
Proof. apply flat_map_app. Qed.

Lemma update_calls_app (a b : history) :
  update_calls (a ++ b)%list = (update_calls a ++ update_calls b)%list.
Proof. apply flat_map_app. Qed.

Lemma pull_calls_app (a b : history) :
  pull_calls (a ++ b)%list = (pull_calls a ++ pull_calls b)%list.
Proof. apply flat_map_app. Qed.

(** ** The stages when every call succeeds *)

Section AllSucceed.

Variable w : world.
Variable env : environ.
Variable year_width : nat.
Hypothesis good : all_succeed w.

Lemma refactor_all_succeed key rp file_path branch llm_name h :
  env "OPENAI_KEY" = Some key ->
  exists cf code s c,
    refactor_file_with_llm w rp file_path branch (call_openai w env) llm_name h
    = (Ok (s, c, llm_name),
       (h ++ refactor_trace rp file_path branch key cf code s c)%list).
Proof.
  intros Ek.
  destruct (ok_get_contents w good h rp file_path branch) as (sha & code & Hc).
  set (cf := mkContent sha (Ok code)) in *.
  set (p1 := prompt_design_smells code).
  set (h1 := (h ++ EGetContents rp file_path branch (Ok cf)
                :: llm_request key smell_role p1)%list).
  destruct (ok_chat w good h1 openrouter_url key openai_model
              (chat_messages p1 smell_role)) as (s & Hs).
  set (p2 := prompt_refactor s code).
  set (h2 := (h1 ++ llm_answer smell_role p1 (Ok s)
                 :: llm_request key refactor_role p2)%list).
  destruct (ok_chat w good h2 openrouter_url key openai_model
              (chat_messages p2 refactor_role)) as (c & Hc2).
  exists cf, code, s, c.
  apply (refactor_with_openai_run w env rp file_path branch llm_name key h
           cf code s c Ek Hc eq_refl Hs Hc2).
Qed.

Lemma update_loop_all_succeed rp branch_name (files_updates : Dict.t string) :
  forall h, exists d,
    for_each (Dict.items files_updates)
      (fun '(file_path, new_content) =>
         print ("Updating file: " ++ file_path ++ " at repo: " ++ full_name rp) ;;;
         file_obj <- call (fun h => o_get_contents w h rp file_path branch_name)
                          (EGetContents rp file_path branch_name) ;;
         call (fun h => o_update_file w h rp file_path commit_message
                          new_content (cf_sha file_obj) branch_name)
              (EUpdateFile rp file_path commit_message new_content
                           (cf_sha file_obj) branch_name)) h
    = (Ok tt, (h ++ d)%list)
    /\ update_calls d = files_updates
    /\ chat_calls d = [] /\ pull_calls d = [].
Proof.
  induction files_updates as [|[fp nc] r IH]; intros h.
  - exists []. simpl. unfold ret. rewrite app_nil_r. auto.
  - set (h1 := (h ++ [EPrint ("Updating file: " ++ fp ++ " at repo: "
                              ++ full_name rp)])%list).
    destruct (ok_get_contents w good h1 rp fp branch_name) as (sha & code & Hc).
    set (cf := mkContent sha (Ok code)) in *.
    set (h2 := (h1 ++ [EGetContents rp fp branch_name (Ok cf)])%list).
    pose proof (ok_update_file w good h2 rp fp commit_message nc sha branch_name)
      as Hu.
    set (h3 := (h2 ++ [EUpdateFile rp fp commit_message nc sha branch_name (Ok tt)])%list).
    destruct (IH h3) as (d & Ed & Hupd & Hchat & Hpull).
    exists ([ EPrint ("Updating file: " ++ fp ++ " at repo: " ++ full_name rp);
              EGetContents rp fp branch_name (Ok cf);
              EUpdateFile rp fp commit_message nc sha branch_name (Ok tt) ] ++ d)%list.
    split; [|split; [|split]].
    + unfold Dict.items in *. cbn [for_each].
      erewrite bind_ok.
      * rewrite Ed. unfold h3, h2, h1. rewrite <- !app_assoc. reflexivity.
      * rewrite (bind_ok _ _ _ _ _ (print_run _ _)). fold h1.
        rewrite (bind_ok _ _ _ _ _ (call_ok _ _ _ _ Hc)). fold h2.
        apply (call_ok _ _ _ _ Hu).
    + rewrite update_calls_app, Hupd. reflexivity.
    + rewrite chat_calls_app, Hchat. reflexivity.
    + rewrite pull_calls_app, Hpull. reflexivity.
Qed.

Lemma apply_all_succeed rp (files_updates : Dict.t string) h :
  exists d,
    apply_refactorings_to_files w year_width rp files_updates h
    = (Ok (branch_prefix ++ strftime_compact year_width (o_now w h)),
       (h ++ d)%list)
    /\ update_calls d = files_updates
    /\ chat_calls d = [] /\ pull_calls d = [].
Proof.
  unfold apply_refactorings_to_files.
  change (bind (ask (o_now w) ENow) ?k h)
    with (k (o_now w h) (h ++ [ENow (o_now w h)])%list).
  cbv beta zeta.
  set (name := branch_prefix ++ strftime_compact year_width (o_now w h)).
  set (h1 := (h ++ [ENow (o_now w h)])%list).
  destruct (ok_get_branch w good h1 rp "master") as (sha & Hb).
  set (h2 := (h1 ++ [EGetBranch rp "master" (Ok sha)])%list).
  set (h3 := (h2 ++ [EPrint ("Creating new branch '" ++ name ++ "' from 'main'...")])%list).
  pose proof (ok_create_git_ref w good h3 rp ("refs/heads/" ++ name) sha) as Hr.
  set (h4 := (h3 ++ [ECreateGitRef rp ("refs/heads/" ++ name) sha (Ok tt)])%list).
  destruct (update_loop_all_succeed rp name files_updates h4)
    as (d & Ed & Hupd & Hchat & Hpull).
  exists ([ ENow (o_now w h); EGetBranch rp "master" (Ok sha);
            EPrint ("Creating new branch '" ++ name ++ "' from 'main'...");
            ECreateGitRef rp ("refs/heads/" ++ name) sha (Ok tt) ] ++ d)%list.
  split; [|split; [|split]].
  - rewrite (bind_ok _ _ _ _ _ (call_ok _ _ _ _ Hb)). fold h2.
    rewrite (bind_ok _ _ _ _ _ (print_run _ _)). fold h3.
    rewrite (bind_ok _ _ _ _ _ (call_ok _ _ _ _ Hr)). fold h4.
    rewrite (bind_ok _ _ _ _ _ Ed).
    unfold ret, h4, h3, h2, h1. rewrite <- !app_assoc. reflexivity.
  - rewrite update_calls_app, Hupd. reflexivity.
  - rewrite chat_calls_app, Hchat. reflexivity.
  - rewrite pull_calls_app, Hpull. reflexivity.
Qed.

End AllSucceed.

(** ** The loop of [main] and the body of the pull request *)

Lemma process_files_cons (w : world) (env : environ) rp f rest ds rf h :
  process_files w env rp (f :: rest) ds rf h
  = bind (emit (processing f))
      (fun _ =>
         bind (refactor_file_with_llm w rp f "master" (call_openai w env) "OpenAI")
           (fun res =>
              let '(s, c, _) := res in
              process_files w env rp rest (Dict.set ds f s) (Dict.set rf f c))) h.
Proof. reflexivity. Qed.

Lemma dict_set_two {V} (f1 f2 : string) (v1 v2 : V) :
  f1 <> f2 -> Dict.set (Dict.set [] f1 v1) f2 v2 = [(f1, v1); (f2, v2)].
Proof.
  intros Hne. simpl. apply String.eqb_neq in Hne. rewrite Hne. reflexivity.
Qed.

Lemma refactor_trace_calls rp f br key cf code s c :
  chat_calls (refactor_trace rp f br key cf code s c)
  = [ (chat_messages (prompt_design_smells code) smell_role, Ok s);
      (chat_messages (prompt_refactor s code) refactor_role, Ok c) ]
  /\ update_calls (refactor_trace rp f br key cf code s c) = []
  /\ pull_calls (refactor_trace rp f br key cf code s c) = [].
Proof. repeat split. Qed.

(** The body for two files, cut around the paths and the reports. *)
Lemma pr_body_two (f1 s1 f2 s2 : string) :
  pr_body_of [(f1, s1); (f2, s2)]
  = ("## OpenAI LLM Refactoring Summary" ++ nl ++ nl ++ "### File: `")
    ++ f1 ++ ("`" ++ nl ++ "**Design Smells Detected:**" ++ nl)
    ++ s1 ++ (nl ++ nl ++ nl ++ "### File: `")
    ++ f2 ++ ("`" ++ nl ++ "**Design Smells Detected:**" ++ nl)
    ++ s2 ++ (nl ++ nl).
Proof.
  unfold pr_body_of, pr_body_lines, PyStr.join, Dict.items.
  cbn [flat_map app String.concat].
  rewrite !string_app_assoc. reflexivity.
Qed.

Section AllSucceedRun.

Variable w : world.
Variable env : environ.
Variable year_width : nat.
Hypothesis good : all_succeed w.

Lemma process_two_files key rp f1 f2 h :
  env "OPENAI_KEY" = Some key -> f1 <> f2 ->
  exists cf1 code1 s1 c1 cf2 code2 s2 c2,
    process_files w env rp [f1; f2] [] [] h
    = (Ok ([(f1, s1); (f2, s2)], [(f1, c1); (f2, c2)]),
       (h ++ processing f1
          :: refactor_trace rp f1 "master" key cf1 code1 s1 c1
          ++ processing f2
          :: refactor_trace rp f2 "master" key cf2 code2 s2 c2)%list).
Proof.
  intros Ek Hne.
  set (h1 := (h ++ [processing f1])%list).
  destruct (refactor_all_succeed w env good key rp f1 "master" "OpenAI" h1 Ek)
    as (cf1 & code1 & s1 & c1 & R1).
  set (h2 := (h1 ++ refactor_trace rp f1 "master" key cf1 code1 s1 c1)%list) in R1.
  set (h3 := (h2 ++ [processing f2])%list).
  destruct (refactor_all_succeed w env good key rp f2 "master" "OpenAI" h3 Ek)
    as (cf2 & code2 & s2 & c2 & R2).
  exists cf1, code1, s1, c1, cf2, code2, s2, c2.
  rewrite process_files_cons.
  change (bind (emit (processing f1)) ?k h) with (k tt h1). cbv beta.
  rewrite (bind_ok _ _ _ _ _ R1). cbv beta iota.
  rewrite process_files_cons.
  change (bind (emit (processing f2)) ?k h2) with (k tt h3). cbv beta.
  rewrite (bind_ok _ _ _ _ _ R2). cbv beta iota.
  cbn [process_files]. unfold ret.
  rewrite !(dict_set_two f1 f2) by exact Hne.
  unfold h3, h2, h1. rewrite <- !app_assoc. reflexivity.
Qed.

End AllSucceedRun.

(** ** End to end *)


Lemma demo_world_all_succeed rp tree now : all_succeed (Demo.world_of rp tree now).
Proof. constructor; intros; simpl; eauto. Qed.


(** ** A run without the LLM key *)

Section NoKey.

Variable w : world.
Variable env : environ.
Hypothesis no_key : env "OPENAI_KEY" = None.

(** Without the key, the refactoring of a file always raises, and adds
    neither an LLM call nor a publishing call to the history. *)
Lemma refactor_without_key rp file_path branch llm_name h :
  exists e d,
    refactor_file_with_llm w rp file_path branch (call_openai w env) llm_name h
    = (Raise e, (h ++ d)%list)
    /\ quiet d
    /\ forall cf code,
         o_get_contents w h rp file_path branch = Ok cf ->
         cf_text cf = Ok code ->
         e = KeyError "OPENAI_KEY"
         /\ d = [ EGetContents rp file_path branch (Ok cf);
                  EPrint (banner smell_role (prompt_design_smells code)) ].
Proof.
  unfold refactor_file_with_llm, bind at 1, call.
  destruct (o_get_contents w h rp file_path branch) as [cf|e] eqn:Hc.
  - unfold lift, bind at 1. destruct (cf_text cf) as [code|e] eqn:Ht.
    + rewrite (bind_raise _ _ _ _ _
                 (call_openai_without_key w env _ _ _ no_key)).
      exists (KeyError "OPENAI_KEY").
      exists [ EGetContents rp file_path branch (Ok cf);
               EPrint (banner smell_role (prompt_design_smells code)) ].
      split; [rewrite <- app_assoc; reflexivity|].
      split; [reflexivity|].
      intros cf' code' [= <-] Ht'. rewrite Ht in Ht'. injection Ht' as <-.
      split; reflexivity.
    + exists e, [EGetContents rp file_path branch (Ok cf)].
      split; [reflexivity|]. split; [reflexivity|].
      intros cf' code' [= <-] Ht'. rewrite Ht in Ht'. discriminate.
  - exists e, [EGetContents rp file_path branch (Raise e)].
    split; [reflexivity|]. split; [reflexivity|]. discriminate.
Qed.

End NoKey.

(** C10, as the code has it.  With [TOKEN] set and [OPENAI_KEY] absent,
    in a run that connected and got a listing with a [.java] blob: files
    are selected, the run is caught and returns normally, and its history
    has no LLM client, chat call, branch creation, file update or pull
    request.  When moreover the first file's content is fetched and
    decoded, the body of [main] raises [KeyError('OPENAI_KEY')] right after
    the banner of the first [call_openai], that is after the repository
    lookup and the tree listing. *)
Theorem missing_llm_key_fails_at_first_llm_call
    (w : world) (env : environ) (year_width : nat)
    (tok : string) (rp : repo) (tree : list tree_item) :
  env "OPENAI_KEY" = None ->
  env "TOKEN" = Some tok -> tok <> EmptyString ->
  o_get_repo w [EGithub tok] tok repo_name = Ok rp ->
  o_get_git_tree w (connected tok rp) rp "master" true = Ok tree ->
  java_blobs tree <> [] ->
  exists d,
    quiet d
    /\ let h0 := (connected tok rp
                  ++ EGetGitTree rp "master" true (Ok tree)
                  :: d ++ [processing first_selected])%list in
       (exists h, main w env year_width [] = (Ok tt, h) /\ quiet h)
       /\ forall cf code,
            o_get_contents w h0 rp first_selected "master" = Ok cf ->
            cf_text cf = Ok code ->
            let h1 := (h0 ++ [ EGetContents rp first_selected "master" (Ok cf);
                               EPrint (banner smell_role
                                         (prompt_design_smells code)) ])%list in
            main_body w env year_width [] = (Raise (KeyError "OPENAI_KEY"), h1)
            /\ main w env year_width []
               = (Ok tt, (h1 ++ [EPrint "An error occurred: 'OPENAI_KEY'"])%list).
Proof.
  intros Nk Et Hne Hr L J.
  pose proof (get_repo_connects w env [] tok rp Et Hne Hr) as G.
  destruct (pick_files_override w rp (Some "master") 2 _ tree L J)
    as (d & Hq & EP); [lia|].
  exists d. split; [exact Hq|]. intros h0.
  destruct (refactor_without_key w env Nk rp first_selected "master" "OpenAI" h0)
    as (e & dR & ER & HqR & Hkey).
  assert (Body : main_body w env year_width [] = (Raise e, (h0 ++ dR)%list)).
  { unfold main_body.
    rewrite (bind_ok _ _ _ _ _ G).
    change ([] ++ connected tok rp)%list with (connected tok rp).
    rewrite (bind_ok _ _ _ _ _ EP).
    change fixed_selection with (first_selected :: tl fixed_selection).
    cbv iota. apply bind_raise. rewrite process_files_cons.
    change (bind (emit (processing first_selected)) ?k ?x)
      with (k tt (x ++ [processing first_selected])%list).
    cbv beta.
    replace (((connected tok rp ++ [EGetGitTree rp (branch_of rp (Some "master")) true (Ok tree)])
               ++ d) ++ [processing first_selected])%list with h0
      by (unfold h0, branch_of; rewrite <- !app_assoc; reflexivity).
    apply bind_raise. exact ER. }
  split.
  - eexists. split.
    + unfold main, try_except. rewrite Body. reflexivity.
    + apply quiet_app; [|reflexivity].
      apply quiet_app; [|exact HqR].
      unfold h0. apply quiet_app; [reflexivity|].
      change (quiet ([EGetGitTree rp "master" true (Ok tree)]
                     ++ d ++ [processing first_selected])%list).
      apply quiet_app; [reflexivity|].
      apply quiet_app; [exact Hq | reflexivity].
  - intros cf code Hc Ht h1.
    destruct (Hkey cf code Hc Ht) as [-> ->].
    split; [exact Body|].
    unfold main, try_except. rewrite Body. reflexivity.
Qed.

Lemma missing_llm_key_fails_at_first_llm_call_witness :
  exists h1,
    main_body (Demo.world_of Demo.forked Demo.two_dirs Demo.noon)
      Demo.env_no_key 4 []
    = (Raise (KeyError "OPENAI_KEY"), h1)
    /\ main (Demo.world_of Demo.forked Demo.two_dirs Demo.noon)
         Demo.env_no_key 4 []
       = (Ok tt, (h1 ++ [EPrint "An error occurred: 'OPENAI_KEY'"])%list)
    /\ quiet (h1 ++ [EPrint "An error occurred: 'OPENAI_KEY'"])%list.
Proof.
  destruct (missing_llm_key_fails_at_first_llm_call
              (Demo.world_of Demo.forked Demo.two_dirs Demo.noon)
              Demo.env_no_key 4 "ghp_token" Demo.forked Demo.two_dirs
              eq_refl eq_refl) as (d & Hq & Hrun).
  - discriminate.
  - reflexivity.
  - reflexivity.
  - vm_compute; discriminate.
  - cbv zeta in Hrun. destruct Hrun as ((h & Hmain & Hquiet) & Hkey).
    destruct (Hkey (mkContent ("sha-" ++ first_selected)
                      (Ok ("class " ++ first_selected)))
                ("class " ++ first_selected) eq_refl eq_refl)
      as (Hbody & Hmain').
    eexists. split; [exact Hbody|]. split; [exact Hmain'|].
    rewrite Hmain' in Hmain. injection Hmain as <-. exact Hquiet.
Defined.

(** C10, as the claim words it, fails when the first selected file
    cannot be fetched: with [TOKEN] set, [OPENAI_KEY] absent and the pair
    selected, the run fails at the content fetch, before [call_openai] is
    entered, and the exception is not the [KeyError]. *)
Lemma missing_llm_key_run_fails_at_fetch :
  Demo.env_no_key "TOKEN" = Some "ghp_token"
  /\ Demo.env_no_key "OPENAI_KEY" = None
  /\ fst (pick_files world_file_missing Demo.forked (Some "master") 2
            (connected "ghp_token" Demo.forked))
     = Ok fixed_selection
  /\ fst (main_body world_file_missing Demo.env_no_key 4 [])
     = Raise (mkExn "UnknownObjectException" "404 Not Found")
  /\ fst (main_body world_file_missing Demo.env_no_key 4 [])
     <> Raise (KeyError "OPENAI_KEY")
  /\ last (snd (main_body world_file_missing Demo.env_no_key 4 []))
       (EPrint EmptyString)
     = EGetContents Demo.forked first_selected "master"
         (Raise (mkExn "UnknownObjectException" "404 Not Found")).
Proof.
  split; [reflexivity|]. split; [reflexivity|].
  split; [vm_compute; reflexivity|]. split; [vm_compute; reflexivity|].
  split; [vm_compute; discriminate | vm_compute; reflexivity].
Qed.


(** * Further properties of the script *)

(** ** Dictionaries: insertion and lookup *)

Section DictLaws.

Context {V : Type}.

Lemma dict_get_set_same (d : Dict.t V) k v : Dict.get (Dict.set d k v) k = Some v.
Proof.
  induction d as [|[k' v'] r IH]; simpl.
  - rewrite String.eqb_refl. reflexivity.
  - destruct (String.eqb k' k) eqn:E; simpl; rewrite E; [reflexivity | exact IH].
Qed.

Lemma dict_get_set_other (d : Dict.t V) k v k' :
  k <> k' -> Dict.get (Dict.set d k v) k' = Dict.get d k'.
Proof.
  intros Hne. induction d as [|[k0 v0] r IH]; simpl.
  - apply String.eqb_neq in Hne. rewrite Hne. reflexivity.
  - destruct (String.eqb k0 k) eqn:E; simpl.
    + apply String.eqb_eq in E. subst k0.
      apply String.eqb_neq in Hne. rewrite Hne. reflexivity.
    + rewrite IH. reflexivity.
Qed.

Lemma dict_set_set (d : Dict.t V) k v v' :
  Dict.set (Dict.set d k v) k v' = Dict.set d k v'.
Proof.
  induction d as [|[k0 v0] r IH]; simpl.
  - rewrite String.eqb_refl. reflexivity.
  - destruct (String.eqb k0 k) eqn:E; simpl; rewrite E; [reflexivity|].
    rewrite IH. reflexivity.
Qed.

Lemma dict_mem_cons (d : Dict.t V) k0 v0 k :
  Dict.mem ((k0, v0) :: d) k = String.eqb k0 k || Dict.mem d k.
Proof. unfold Dict.mem; simpl. destruct (String.eqb k0 k); reflexivity. Qed.

Lemma dict_mem_keys (d : Dict.t V) k :
  Dict.mem d k = true <-> In k (Dict.keys d).
Proof.
  induction d as [|[k0 v0] r IH]; [simpl; split; [discriminate | contradiction]|].
  rewrite dict_mem_cons. simpl. rewrite orb_true_iff, String.eqb_eq, IH.
  reflexivity.
Qed.

Lemma dict_keys_set (d : Dict.t V) k v :
  Dict.keys (Dict.set d k v)
  = if Dict.mem d k then Dict.keys d else (Dict.keys d ++ [k])%list.
Proof.
  induction d as [|[k0 v0] r IH]; [reflexivity|].
  rewrite dict_mem_cons. simpl.
  destruct (String.eqb k0 k) eqn:E; simpl; [reflexivity|].
  rewrite IH. destruct (Dict.mem r k); reflexivity.
Qed.

Lemma dict_keys_set_nodup (d : Dict.t V) k v :
  NoDup (Dict.keys d) -> NoDup (Dict.keys (Dict.set d k v)).
Proof.
  intros Hd. rewrite dict_keys_set.
  destruct (Dict.mem d k) eqn:E; [exact Hd|].
  apply NoDup_app; [exact Hd | repeat constructor; intros [] | ].
  intros x Hx [<- | []].
  apply dict_mem_keys in Hx. congruence.
Qed.

Lemma dict_get_some_key (d : Dict.t V) k v :
  Dict.get d k = Some v -> In k (Dict.keys d).
Proof.
  intros H. apply dict_mem_keys. unfold Dict.mem. rewrite H. reflexivity.
Qed.

End DictLaws.

(** ** The grouping loop of [pick_files] *)

Lemma group_item_takes (d : Dict.t (list string)) (item : tree_item) :
  String.eqb (item_type item) "blob"
  && PyStr.endswith (item_path item) ".java" = true ->
  group_item d item
  = Dict.set d (PyStr.dirname (item_path item))
      (match Dict.get d (PyStr.dirname (item_path item)) with
       | Some l => l
       | None => []
       end ++ [item_path item])%list.
Proof.
  intros Hc. unfold group_item. rewrite Hc.
  set (k := PyStr.dirname (item_path item)).
  unfold Dict.mem. destruct (Dict.get d k) as [l|] eqn:G.
  - rewrite G. reflexivity.
  - rewrite dict_get_set_same, dict_set_set. reflexivity.
Qed.

Lemma paths_in_snoc (dir : string) (seen : list string) (p : string) :
  paths_in dir (seen ++ [p])
  = (paths_in dir seen
     ++ if String.eqb (PyStr.dirname p) dir then [p] else [])%list.
Proof. unfold paths_in. rewrite filter_app. reflexivity. Qed.

Lemma group_entry_snoc (l : list string) (p : string) :
  group_entry (l ++ [p]) = Some (l ++ [p])%list.
Proof. destruct l; reflexivity. Qed.

Lemma group_entry_default (l : list string) :
  match group_entry l with Some l' => l' | None => [] end = l.
Proof. destruct l; reflexivity. Qed.

(** The loop invariant: the dictionary holds, for each directory, the
    kept paths seen so far that lie in it. *)
Lemma group_fold_invariant (tree : list tree_item) :
  forall (acc : Dict.t (list string)) (seen : list string),
    NoDup (Dict.keys acc) ->
    (forall dir, Dict.get acc dir = group_entry (paths_in dir seen)) ->
    NoDup (Dict.keys (fold_left group_item tree acc))
    /\ forall dir,
         Dict.get (fold_left group_item tree acc) dir
         = group_entry (paths_in dir (seen ++ java_paths tree)).
Proof.
  induction tree as [|item r IH]; intros acc seen Hnd Hacc.
  - simpl. unfold java_paths. simpl. rewrite app_nil_r. auto.
  - simpl. unfold java_paths. simpl.
    destruct (String.eqb (item_type item) "blob"
              && PyStr.endswith (item_path item) ".java") eqn:Hc.
    + simpl.
      replace (seen ++ item_path item :: map item_path (java_blobs r))%list
        with ((seen ++ [item_path item]) ++ java_paths r)%list
        by (rewrite <- app_assoc; reflexivity).
      rewrite (group_item_takes _ _ Hc).
      apply IH.
      * apply dict_keys_set_nodup, Hnd.
      * intros dir. rewrite paths_in_snoc.
        set (k := PyStr.dirname (item_path item)).
        destruct (String.eqb k dir) eqn:E.
        -- apply String.eqb_eq in E. subst dir.
           rewrite dict_get_set_same, Hacc, group_entry_default,
             group_entry_snoc.
           reflexivity.
        -- apply String.eqb_neq in E.
           rewrite (dict_get_set_other _ _ _ _ E), app_nil_r. apply Hacc.
    + rewrite (group_item_skip _ _ Hc). apply IH; assumption.
Qed.

Lemma group_by_dir_lookup_aux (tree : list tree_item) (dir : string) :
  Dict.get (group_by_dir tree) dir
  = group_entry (paths_in dir (java_paths tree)).
Proof.
  unfold group_by_dir.
  destruct (group_fold_invariant tree [] []) as [_ H].
  - constructor.
  - intros d. reflexivity.
  - apply H.
Qed.

(** X1. [group_by_dir] files each kept path under its parent directory
    and nowhere else: looking a directory up gives the kept paths that lie
    in it, in the order of the listing, and nothing for a directory without
    kept path.  So every path found under a directory is a kept path of
    that directory, and every kept path is found under its own. *)
Theorem group_by_dir_lookup (tree : list tree_item) :
  (forall dir,
     Dict.get (group_by_dir tree) dir
     = group_entry (paths_in dir (java_paths tree)))
  /\ (forall dir files f,
        Dict.get (group_by_dir tree) dir = Some files -> In f files ->
        In f (java_paths tree) /\ PyStr.dirname f = dir)
  /\ (forall p,
        In p (java_paths tree) ->
        exists files,
          Dict.get (group_by_dir tree) (PyStr.dirname p) = Some files
          /\ In p files).
Proof.
  split; [apply group_by_dir_lookup_aux|]. split.
  - intros dir files f G Hf. rewrite group_by_dir_lookup_aux in G.
    destruct (paths_in dir (java_paths tree)) as [|q l] eqn:P;
      [discriminate|].
    injection G as <-. rewrite <- P in Hf.
    unfold paths_in in Hf. apply filter_In in Hf. destruct Hf as [Hf E].
    split; [exact Hf | apply String.eqb_eq, E].
  - intros p Hp.
    assert (Hin : In p (paths_in (PyStr.dirname p) (java_paths tree))).
    { unfold paths_in. apply filter_In. split; [exact Hp|].
      apply String.eqb_refl. }
    rewrite group_by_dir_lookup_aux.
    destruct (paths_in (PyStr.dirname p) (java_paths tree)) as [|q l] eqn:P;
      [contradiction|].
    exists (q :: l). split; [reflexivity | exact Hin].
Qed.

Lemma group_by_dir_lookup_witness :
  Dict.get (group_by_dir
              (Demo.two_dirs ++ [mkItem "blob" "a/Z.java"; mkItem "blob" "a/notes.txt"]))
    "a"
  = Some ["a/X.java"; "a/Z.java"].
Proof.
  rewrite (proj1 (group_by_dir_lookup
                    (Demo.two_dirs
                     ++ [mkItem "blob" "a/Z.java"; mkItem "blob" "a/notes.txt"]))).
  reflexivity.
Defined.

(** X2. The directories [random.choice] draws from are listed once each,
    and they are the parent directories of the kept paths. *)
Theorem group_by_dir_keys (tree : list tree_item) :
  NoDup (Dict.keys (group_by_dir tree))
  /\ forall dir,
       In dir (Dict.keys (group_by_dir tree))
       <-> exists p, In p (java_paths tree) /\ PyStr.dirname p = dir.
Proof.
  split.
  - unfold group_by_dir.
    destruct (group_fold_invariant tree [] []) as [H _];
      [constructor | reflexivity | exact H].
  - intros dir.
    pose proof (group_by_dir_lookup_aux tree dir) as L.
    split.
    + intros Hin. destruct (dict_get_of_key _ _ Hin) as (v & Hv).
      rewrite L in Hv.
      destruct (paths_in dir (java_paths tree)) as [|p l] eqn:P;
        [discriminate|].
      assert (Hp : In p (paths_in dir (java_paths tree)))
        by (rewrite P; left; reflexivity).
      unfold paths_in in Hp. apply filter_In in Hp. destruct Hp as [Hp E].
      exists p. split; [exact Hp | apply String.eqb_eq, E].
    + intros (p & Hp & E).
      assert (Hin : In p (paths_in dir (java_paths tree))).
      { unfold paths_in. apply filter_In. split; [exact Hp|].
        apply String.eqb_eq, E. }
      destruct (paths_in dir (java_paths tree)) as [|q l] eqn:P;
        [contradiction|].
      apply (dict_get_some_key _ _ (q :: l)). rewrite L. reflexivity.
Qed.

(** ** The extension test *)

Lemma substring_skip (p s : string) (m : nat) :
  substring (String.length p) m (p ++ s) = substring 0 m s.
Proof. induction p as [|c p IH]; simpl; [reflexivity | exact IH]. Qed.

Lemma substring_whole (s : string) : substring 0 (String.length s) s = s.
Proof.
  induction s as [|c s IH]; simpl; [reflexivity | rewrite IH; reflexivity].
Qed.

Lemma substring_split (k : nat) :
  forall s, k <= String.length s ->
    s = substring 0 k s ++ substring k (String.length s - k) s.
Proof.
  induction k as [|k IH]; intros s Hk.
  - rewrite Nat.sub_0_r, substring_whole. destruct s; reflexivity.
  - destruct s as [|c s]; simpl in Hk; [lia|].
    simpl. rewrite <- IH by lia. reflexivity.
Qed.

Lemma endswith_iff (s suffix : string) :
  PyStr.endswith s suffix = true <-> exists stem, s = stem ++ suffix.
Proof.
  unfold PyStr.endswith. split.
  - destruct (Nat.leb_spec (String.length suffix) (String.length s)) as [Hle|];
      [|discriminate].
    intros E. apply String.eqb_eq in E.
    exists (substring 0 (String.length s - String.length suffix) s).
    pose proof (substring_split (String.length s - String.length suffix) s
                  (Nat.le_sub_l _ _)) as H.
    replace (String.length s - (String.length s - String.length suffix))
      with (String.length suffix) in H by lia.
    rewrite E in H. exact H.
  - intros (stem & ->). rewrite string_length_app.
    replace (String.length suffix <=? String.length stem + String.length suffix)%nat
      with true by (symmetry; apply Nat.leb_le; lia).
    replace (String.length stem + String.length suffix - String.length suffix)
      with (String.length stem) by lia.
    rewrite substring_skip, substring_whole. apply String.eqb_refl.
Qed.

(** X3. An entry of the listing is kept exactly when its type is
    ["blob"] and its path is some stem, possibly empty, followed by
    [".java"]. *)
Theorem java_blobs_spec (tree : list tree_item) (item : tree_item) :
  In item (java_blobs tree)
  <-> In item tree
      /\ item_type item = "blob"
      /\ exists stem, item_path item = stem ++ ".java".
Proof.
  unfold java_blobs. rewrite filter_In, andb_true_iff, String.eqb_eq, endswith_iff.
  reflexivity.
Qed.

Lemma java_blobs_spec_witness :
  In (mkItem "blob" ".java")
     (java_blobs [mkItem "tree" "src.java"; mkItem "blob" ".java";
                  mkItem "blob" "A.JAVA"]).
Proof.
  apply (proj2 (java_blobs_spec
                  [mkItem "tree" "src.java"; mkItem "blob" ".java";
                   mkItem "blob" "A.JAVA"]
                  (mkItem "blob" ".java"))).
  split; [right; left; reflexivity|].
  split; [reflexivity|]. exists EmptyString. reflexivity.
Defined.

(** ** What [pick_files] does beside returning *)

Lemma network_calls_app (a b : history) :
  network_calls (a ++ b)%list = (network_calls a ++ network_calls b)%list.
Proof. apply filter_app. Qed.

Lemma network_calls_draws (js : list (nat * nat)) : network_calls (draws js) = [].
Proof. induction js as [|nj js IH]; [reflexivity | exact IH]. Qed.

Lemma network_calls_prints {A} (f : A -> string) (xs : list A) :
  network_calls (map (fun x => EPrint (f x)) xs) = [].
Proof. induction xs as [|x xs IH]; [reflexivity | exact IH]. Qed.

Lemma sample_pool_draws (w : world) {A} (k : nat) :
  forall (pool : list A) (h : history),
  exists l js, sample_pool w pool k h = (Ok l, (h ++ draws js)%list).
Proof.
  induction k as [|k IH]; intros pool h.
  - exists [], []. simpl. rewrite app_nil_r. reflexivity.
  - destruct pool as [|x r].
    + exists [], []. simpl. rewrite app_nil_r. reflexivity.
    + set (n := List.length (x :: r)).
      set (j := o_random w h mod n).
      set (pool' := firstn (n - 1) (list_set (x :: r) j (last (x :: r) x))).
      destruct (IH pool' (h ++ [ERandBelow n j])%list) as (l & js & El).
      exists (nth j (x :: r) x :: l), ((n, j) :: js).
      change (sample_pool w (x :: r) (S k) h)
        with (bind (sample_pool w pool' k)
                (fun rest => ret (nth j (x :: r) x :: rest))
                (h ++ [ERandBelow n j])%list).
      rewrite (bind_ok _ _ _ _ _ El).
      unfold ret. rewrite <- app_assoc. reflexivity.
Qed.

(** X4. On a listing with a kept blob, a negative [count] makes
    [pick_files] raise the [ValueError] of [random.sample] after the
    listing and the draw of the directory: no file is drawn, and nothing is
    printed. *)
Theorem pick_files_rejects_negative_count
    (w : world) (rp : repo) (branch : option string) (count : Z)
    (h : history) (tree : list tree_item) :
  o_get_git_tree w h rp (branch_of rp branch) true = Ok tree ->
  java_blobs tree <> [] ->
  (count < 0)%Z ->
  exists j,
    pick_files w rp branch count h
    = (Raise (ValueError "Sample larger than population or is negative"),
       (h ++ [ EGetGitTree rp (branch_of rp branch) true (Ok tree);
               ERandBelow (List.length (Dict.keys (group_by_dir tree))) j ])%list).
Proof.
  intros L J C.
  destruct (pick_files_draws w rp branch count h tree L J)
    as (dir & files & j & _ & E).
  exists j. rewrite E.
  rewrite (bind_raise _ _ _ _ _
             (random_sample_negative w files _ _
                ltac:(apply Z.min_lt_iff; left; exact C))).
  rewrite <- app_assoc. reflexivity.
Qed.

Lemma pick_files_rejects_negative_count_witness :
  exists j,
    pick_files (Demo.world_of Demo.forked Demo.two_dirs Demo.noon)
      Demo.forked None (-5) []
    = (Raise (ValueError "Sample larger than population or is negative"),
       [ EGetGitTree Demo.forked "master" true (Ok Demo.two_dirs);
         ERandBelow 2 j ]).
Proof.
  apply (pick_files_rejects_negative_count
           (Demo.world_of Demo.forked Demo.two_dirs Demo.noon)
           Demo.forked None (-5) [] Demo.two_dirs eq_refl).
  - vm_compute; discriminate.
  - lia.
Defined.

(** X5. Whatever the world answers and whatever it returns or raises,
    [pick_files] makes exactly one network call: the recursive listing of
    the given branch, or of the repository's default branch when none is
    given.  It comes first, and no network call follows it. *)
Theorem pick_files_single_network_call
    (w : world) (rp : repo) (branch : option string) (count : Z)
    (h : history) :
  let listing :=
    EGetGitTree rp (branch_of rp branch) true
      (o_get_git_tree w h rp (branch_of rp branch) true) in
  exists d,
    snd (pick_files w rp branch count h) = (h ++ listing :: d)%list
    /\ network_calls (listing :: d) = [listing].
Proof.
  cbv zeta.
  assert (K : exists d,
             snd (pick_files w rp branch count h)
             = (h ++ EGetGitTree rp (branch_of rp branch) true
                       (o_get_git_tree w h rp (branch_of rp branch) true) :: d)%list
             /\ network_calls d = []).
  { destruct (o_get_git_tree w h rp (branch_of rp branch) true)
      as [tree|e] eqn:L.
    - destruct (java_blobs tree) as [|b bs] eqn:J.
      + exists []. rewrite (pick_files_empty w rp branch count h tree L J).
        split; reflexivity.
      + assert (Hj : java_blobs tree <> []) by (rewrite J; discriminate).
        destruct (pick_files_draws w rp branch count h tree L Hj)
          as (dir & files & j & _ & E).
        rewrite E. clear E.
        set (n := List.length (Dict.keys (group_by_dir tree))).
        set (k := Z.min count (Z.of_nat (List.length files))).
        destruct (Z_lt_le_dec k 0) as [Hneg | Hpos].
        * exists [ERandBelow n j].
          rewrite (bind_raise _ _ _ _ _ (random_sample_negative w files k _ Hneg)).
          split; [cbn [snd]; rewrite <- app_assoc; reflexivity | reflexivity].
        * unfold random_sample. fold k.
          replace ((0 <=? k)%Z && (k <=? Z.of_nat (List.length files))%Z)
            with true
            by (symmetry; apply andb_true_iff; split; apply Z.leb_le;
                [exact Hpos | apply Z.le_min_r]).
          destruct (sample_pool_draws w (Z.to_nat k) files
                      ((h ++ [EGetGitTree rp (branch_of rp branch) true (Ok tree)])
                       ++ [ERandBelow n j])%list)
            as (l & js & Es).
          rewrite (bind_ok _ _ _ _ _ Es).
          rewrite (bind_ok _ _ _ _ _ (print_run _ _)).
          rewrite (bind_ok _ _ _ _ _ (for_each_print _ _ _)).
          exists ([ERandBelow n j] ++ draws js
                  ++ [EPrint ("Selected files from directory '" ++ dir ++ "':")]
                  ++ map (fun f => EPrint (" - " ++ f)) fixed_selection)%list.
          split.
          -- unfold ret. cbn [snd]. rewrite <- !app_assoc. reflexivity.
          -- rewrite !network_calls_app, network_calls_draws,
               network_calls_prints. reflexivity.
    - exists []. unfold pick_files. fold (branch_of rp branch).
      unfold bind, call. rewrite L. split; reflexivity. }
  destruct K as (d & E & N). exists d. split; [exact E|].
  cbn [network_calls filter is_network]. fold (network_calls d).
  rewrite N. reflexivity.
Qed.

(** ** The body of the pull request, for any number of files *)

Lemma string_app_nil_r (s : string) : s ++ EmptyString = s.
Proof. induction s as [|c s IH]; simpl; [reflexivity | rewrite IH; reflexivity]. Qed.

Lemma concat_cons2 (sep x y : string) (l : list string) :
  String.concat sep (x :: y :: l) = x ++ sep ++ String.concat sep (y :: l).
Proof. reflexivity. Qed.

Lemma join_lines_sections (d : Dict.t string) :
  forall first,
    PyStr.join nl
      (first :: flat_map (fun '(file_path, design_smells) =>
                            [ "### File: `" ++ file_path ++ "`";
                              "**Design Smells Detected:**";
                              design_smells;
                              nl ]) d)
    = first ++ pr_sections d.
Proof.
  unfold PyStr.join.
  induction d as [|[f s] r IH]; intros first.
  - simpl. rewrite string_app_nil_r. reflexivity.
  - cbn [flat_map app pr_sections fold_right].
    rewrite !concat_cons2, IH. unfold pr_section. cbn [fst snd].
    rewrite !string_app_assoc. reflexivity.
Qed.

Lemma pr_sections_app (d1 d2 : Dict.t string) :
  pr_sections (d1 ++ d2)%list = pr_sections d1 ++ pr_sections d2.
Proof.
  induction d1 as [|e r IH]; [reflexivity|].
  cbn [app pr_sections fold_right]. fold (pr_sections (r ++ d2)%list).
  fold (pr_sections r). rewrite IH, string_app_assoc. reflexivity.
Qed.

(** X6. The body built for a dictionary of reports is the header line
    followed by one section per entry, in the order of the dictionary; a
    section holds the path, then the report.  An empty dictionary gives the
    header alone. *)
Theorem pr_body_sections (d : Dict.t string) :
  pr_body_of d = pr_header ++ pr_sections d
  /\ pr_body_of [] = "## OpenAI LLM Refactoring Summary" ++ nl
  /\ forall d1 file_path design_smells d2,
       d = (d1 ++ (file_path, design_smells) :: d2)%list ->
       pr_body_of d
       = (pr_header ++ pr_sections d1 ++ nl ++ "### File: `")
         ++ file_path
         ++ ("`" ++ nl ++ "**Design Smells Detected:**" ++ nl)
         ++ design_smells
         ++ (nl ++ nl ++ pr_sections d2).
Proof.
  assert (E : forall d0, pr_body_of d0 = pr_header ++ pr_sections d0).
  { intros d0. unfold pr_body_of, pr_body_lines, Dict.items.
    apply join_lines_sections. }
  split; [apply E|]. split; [reflexivity|].
  intros d1 f s d2 ->. rewrite E, pr_sections_app.
  cbn [pr_sections fold_right]. unfold pr_section. cbn [fst snd].
  rewrite !string_app_assoc. reflexivity.
Qed.

Lemma pr_body_sections_witness :
  pr_body_of [("A.java", "long method"); ("B.java", "god class")]
  = (pr_header ++ pr_sections [("A.java", "long method")] ++ nl ++ "### File: `")
    ++ "B.java"
    ++ ("`" ++ nl ++ "**Design Smells Detected:**" ++ nl)
    ++ "god class"
    ++ (nl ++ nl ++ pr_sections []).
Proof.
  apply (proj2 (proj2 (pr_body_sections
                         [("A.java", "long method"); ("B.java", "god class")]))
           [("A.java", "long method")] "B.java" "god class" []).
  reflexivity.
Defined.

(** ** The characters of the branch name *)

Lemma string_forallb_app (p : ascii -> bool) (a b : string) :
  string_forallb p (a ++ b) = string_forallb p a && string_forallb p b.
Proof.
  unfold string_forallb. induction a as [|c a IH]; simpl; [reflexivity|].
  rewrite IH, andb_assoc. reflexivity.
Qed.

Lemma uint_of_string_digits (s : string) :
  forall u, DecimalString.NilEmpty.uint_of_string s = Some u ->
            string_forallb is_digit s = true.
Proof.
  induction s as [|c s IH]; intros u H; [reflexivity|].
  simpl in H.
  destruct (DecimalString.NilEmpty.uint_of_string s) as [u'|];
    [|discriminate H].
  unfold string_forallb. simpl. fold (string_forallb is_digit s).
  rewrite (IH u' eq_refl), andb_true_r.
  destruct c as [[] [] [] [] [] [] [] []]; simpl in H;
    try discriminate H; reflexivity.
Qed.

Lemma zfill_digits (width n : nat) :
  string_forallb is_digit (PyStr.zfill width (PyStr.str n)) = true.
Proof.
  pose proof (parse_nat_zfill width n) as H. unfold PyStr.parse_nat in H.
  destruct (DecimalString.NilEmpty.uint_of_string
              (PyStr.zfill width (PyStr.str n))) as [u|] eqn:E;
    [|discriminate H].
  apply (uint_of_string_digits _ u E).
Qed.

Lemma is_digit_ref_char (s : string) :
  string_forallb is_digit s = true -> string_forallb is_ref_char s = true.
Proof.
  unfold string_forallb. rewrite !forallb_forall. intros H c Hc.
  unfold is_ref_char. rewrite (H c Hc), orb_true_r. reflexivity.
Qed.

(** X7. The name [apply_refactorings_to_files] returns is made of
    lower-case letters, digits and hyphens only, the part after
    ["openai-refactor-"] of digits only, whatever the clock reads and
    however wide the year is padded. *)
Theorem branch_name_characters
    (w : world) (year_width : nat) (rp : repo) (files_updates : Dict.t string)
    (h h' : history) (b : string) :
  apply_refactorings_to_files w year_width rp files_updates h = (Ok b, h') ->
  exists stamp,
    b = "openai-refactor-" ++ stamp
    /\ string_forallb is_digit stamp = true
    /\ string_forallb is_ref_char b = true.
Proof.
  intros E. apply apply_refactorings_returns_name in E. subst b.
  exists (strftime_compact year_width (o_now w h)).
  assert (D : string_forallb is_digit (strftime_compact year_width (o_now w h))
              = true).
  { unfold strftime_compact.
    rewrite !string_forallb_app, !zfill_digits. reflexivity. }
  split; [reflexivity|]. split; [exact D|].
  unfold branch_prefix. rewrite string_forallb_app, (is_digit_ref_char _ D).
  reflexivity.
Qed.

Lemma branch_name_characters_witness :
  exists stamp,
    "openai-refactor-20250309120007" = "openai-refactor-" ++ stamp
    /\ string_forallb is_digit stamp = true
    /\ string_forallb is_ref_char "openai-refactor-20250309120007" = true.
Proof.
  apply (branch_name_characters
           (Demo.world_of Demo.forked Demo.two_dirs Demo.noon) 4
           Demo.forked [("A.java", "class A {}")] []
           (snd (apply_refactorings_to_files
                   (Demo.world_of Demo.forked Demo.two_dirs Demo.noon) 4
                   Demo.forked [("A.java", "class A {}")] []))).
  reflexivity.
Defined.

(** ** A run without a token *)

(** X9. Without a usable [TOKEN] the whole run, in every world, is one
    printed line: the error text of [get_repo] behind
    ["An error occurred: "].  No client is built, no call made, and the
    exit status is 0. *)
Theorem main_without_token
    (w : world) (env : environ) (year_width : nat) :
  env "TOKEN" = None \/ env "TOKEN" = Some EmptyString ->
  main w env year_width []
  = (Ok tt,
     [EPrint "An error occurred: TOKEN and REPOSITORY must be set as environment variables."])
  /\ fst (run_script w env year_width) = 0.
Proof.
  intros Ht.
  assert (G : get_repo w env [] = (Raise token_error, [])).
  { unfold get_repo. destruct Ht as [-> | ->]; reflexivity. }
  assert (E : main w env year_width []
              = (Ok tt, [EPrint ("An error occurred: " ++ exn_str token_error)])).
  { unfold main, try_except, main_body.
    rewrite (bind_raise _ _ _ _ _ G). reflexivity. }
  split; [exact E|]. unfold run_script. rewrite E. reflexivity.
Qed.

Lemma main_without_token_witness :
  fst (run_script (Demo.world_of Demo.forked Demo.two_dirs Demo.noon)
         Demo.env_empty_token 4)
  = 0.
Proof.
  apply (main_without_token
           (Demo.world_of Demo.forked Demo.two_dirs Demo.noon)
           Demo.env_empty_token 4).
  right. reflexivity.
Defined.

(** ** Every outcome of [refactor_file_with_llm] *)

Lemma refactor_after_fetch
    (w : world) rp file_path branch (cb : string -> string -> M string)
    llm_name h cf code :
  o_get_contents w h rp file_path branch = Ok cf ->
  cf_text cf = Ok code ->
  refactor_file_with_llm w rp file_path branch cb llm_name h
  = bind (cb (prompt_design_smells code) smell_role)
      (fun design_smells =>
         bind (cb (prompt_refactor design_smells code) refactor_role)
           (fun refactored_code =>
              ret (design_smells, refactored_code, llm_name)))
      (h ++ [EGetContents rp file_path branch (Ok cf)])%list.
Proof.
  intros Hc Ht. unfold refactor_file_with_llm.
  rewrite (bind_ok _ _ _ _ _ (call_ok _ _ _ _ Hc)).
  unfold lift. rewrite Ht. reflexivity.
Qed.

Section RefactorOutcomes.

Variable w : world.
Variable env : environ.
Variables (rp : repo) (file_path branch llm_name : string) (h : history).

Let run : result (string * string * string) * history :=
  refactor_file_with_llm w rp file_path branch (call_openai w env) llm_name h.

Let fetched (r : result content_file) : event :=
  EGetContents rp file_path branch r.

(** The six ways the function can go. *)
Lemma refactor_outcomes :
  (exists e, run = (Raise e, (h ++ [fetched (Raise e)])%list))
  \/ (exists cf e,
        cf_text cf = Raise e
        /\ run = (Raise e, (h ++ [fetched (Ok cf)])%list))
  \/ (exists cf code,
        cf_text cf = Ok code /\ env "OPENAI_KEY" = None
        /\ run = (Raise (KeyError "OPENAI_KEY"),
                  (h ++ [ fetched (Ok cf);
                          EPrint (banner smell_role (prompt_design_smells code)) ])%list))
  \/ (exists cf code key e,
        cf_text cf = Ok code /\ env "OPENAI_KEY" = Some key
        /\ run = (Raise e,
                  (h ++ fetched (Ok cf)
                     :: llm_request key smell_role (prompt_design_smells code)
                     ++ [llm_answer smell_role (prompt_design_smells code) (Raise e)])%list))
  \/ (exists cf code key s e,
        cf_text cf = Ok code /\ env "OPENAI_KEY" = Some key
        /\ run = (Raise e,
                  (h ++ fetched (Ok cf)
                     :: llm_request key smell_role (prompt_design_smells code)
                     ++ llm_answer smell_role (prompt_design_smells code) (Ok s)
                     :: llm_request key refactor_role (prompt_refactor s code)
                     ++ [llm_answer refactor_role (prompt_refactor s code) (Raise e)])%list))
  \/ (exists cf code key s c,
        cf_text cf = Ok code /\ env "OPENAI_KEY" = Some key
        /\ run = (Ok (s, c, llm_name),
                  (h ++ refactor_trace rp file_path branch key cf code s c)%list)).
Proof.
  unfold run, fetched.
  destruct (o_get_contents w h rp file_path branch) as [cf|e] eqn:Hc.
  2:{ left. exists e. unfold refactor_file_with_llm.
      apply bind_raise. unfold call. rewrite Hc. reflexivity. }
  right.
  destruct (cf_text cf) as [code|e] eqn:Ht.
  2:{ left. exists cf, e. split; [exact Ht|].
      unfold refactor_file_with_llm.
      rewrite (bind_ok _ _ _ _ _ (call_ok _ _ _ _ Hc)).
      apply bind_raise. unfold lift. rewrite Ht. reflexivity. }
  right.
  rewrite (refactor_after_fetch w rp file_path branch (call_openai w env)
             llm_name h cf code Hc Ht).
  set (h0 := (h ++ [EGetContents rp file_path branch (Ok cf)])%list).
  destruct (env "OPENAI_KEY") as [key|] eqn:Ek.
  2:{ left. exists cf, code. split; [exact Ht|]. split; [first [exact Ek | reflexivity]|].
      rewrite (bind_raise _ _ _ _ _
                 (call_openai_without_key w env _ _ _ Ek)).
      unfold h0. rewrite <- app_assoc. reflexivity. }
  right.
  pose proof (call_openai_run w env key (prompt_design_smells code)
                smell_role h0 Ek) as R1.
  cbv zeta in R1.
  destruct (o_chat w (h0 ++ llm_request key smell_role (prompt_design_smells code))%list
              openrouter_url key openai_model
              (chat_messages (prompt_design_smells code) smell_role))
    as [s|e] eqn:H1.
  2:{ left. exists cf, code, key, e. split; [exact Ht|]. split; [first [exact Ek | reflexivity]|].
      rewrite (bind_raise _ _ _ _ _ R1).
      unfold h0. rewrite <- !app_assoc. reflexivity. }
  right. rewrite (bind_ok _ _ _ _ _ R1).
  set (h1 := (h0 ++ llm_request key smell_role (prompt_design_smells code)
                 ++ [llm_answer smell_role (prompt_design_smells code) (Ok s)])%list).
  pose proof (call_openai_run w env key (prompt_refactor s code)
                refactor_role h1 Ek) as R2.
  cbv zeta in R2.
  destruct (o_chat w (h1 ++ llm_request key refactor_role (prompt_refactor s code))%list
              openrouter_url key openai_model
              (chat_messages (prompt_refactor s code) refactor_role))
    as [c|e] eqn:H2.
  - right. exists cf, code, key, s, c. split; [exact Ht|]. split; [first [exact Ek | reflexivity]|].
    rewrite (bind_ok _ _ _ _ _ R2).
    unfold ret, refactor_trace, h1, h0. rewrite <- !app_assoc. reflexivity.
  - left. exists cf, code, key, s, e. split; [exact Ht|]. split; [first [exact Ek | reflexivity]|].
    rewrite (bind_raise _ _ _ _ _ R2).
    unfold h1, h0. rewrite <- !app_assoc. reflexivity.
Qed.

End RefactorOutcomes.

(** X10. In every world and whatever it returns or raises,
    [refactor_file_with_llm] over [call_openai] fetches the file once, at
    the ref it was given, issues at most two chat calls, and changes
    nothing in the repository: no branch creation, no file update, no pull
    request. *)
Theorem refactor_is_read_only
    (w : world) (env : environ) (rp : repo)
    (file_path branch llm_name : string) (h : history) :
  exists d,
    snd (refactor_file_with_llm w rp file_path branch (call_openai w env)
           llm_name h)
    = (h ++ d)%list
    /\ content_fetches d = [(file_path, branch)]
    /\ List.length (chat_calls d) <= 2
    /\ publish_calls d = [].
Proof.
  destruct (refactor_outcomes w env rp file_path branch llm_name h)
    as [(e & E) | [(cf & e & _ & E) | [(cf & code & _ & _ & E)
       | [(cf & code & key & e & _ & _ & E)
       | [(cf & code & key & s & e & _ & _ & E)
       | (cf & code & key & s & c & _ & _ & E)]]]]];
    rewrite E; eexists; (split; [reflexivity|]);
    repeat split; simpl; lia.
Qed.

(** X11. The chat calls of [refactor_file_with_llm] over [call_openai]
    and its outcome go together in one of four ways: no call and an
    exception; the smell prompt alone, which raised, and that exception;
    the smell prompt answered and the refactor prompt built from that
    answer, which raised, and that exception; or both answered, and the two
    answers returned with the name passed in.  So the refactor prompt is
    never sent without a smell report, and a call that raises is the last
    one. *)
Theorem refactor_chat_discipline
    (w : world) (env : environ) (rp : repo)
    (file_path branch llm_name : string) (h : history) :
  let run := refactor_file_with_llm w rp file_path branch (call_openai w env)
               llm_name h in
  let ask_smells code :=
    chat_messages (prompt_design_smells code) smell_role in
  let ask_refactor s code :=
    chat_messages (prompt_refactor s code) refactor_role in
  exists d,
    snd run = (h ++ d)%list
    /\ ((chat_calls d = [] /\ exists e, fst run = Raise e)
        \/ (exists code e,
              chat_calls d = [(ask_smells code, Raise e)]
              /\ fst run = Raise e)
        \/ (exists code s e,
              chat_calls d = [ (ask_smells code, Ok s);
                               (ask_refactor s code, Raise e) ]
              /\ fst run = Raise e)
        \/ (exists code s c,
              chat_calls d = [ (ask_smells code, Ok s);
                               (ask_refactor s code, Ok c) ]
              /\ fst run = Ok (s, c, llm_name))).
Proof.
  cbv zeta.
  destruct (refactor_outcomes w env rp file_path branch llm_name h)
    as [(e & E) | [(cf & e & _ & E) | [(cf & code & _ & _ & E)
       | [(cf & code & key & e & _ & _ & E)
       | [(cf & code & key & s & e & _ & _ & E)
       | (cf & code & key & s & c & _ & _ & E)]]]]];
    rewrite E; eexists; (split; [reflexivity|]).
  - left. split; [reflexivity | eexists; reflexivity].
  - left. split; [reflexivity | eexists; reflexivity].
  - left. split; [reflexivity | eexists; reflexivity].
  - right; left. exists code, e. split; reflexivity.
  - right; right; left. exists code, s, e. split; reflexivity.
  - right; right; right. exists code, s, c. split; reflexivity.
Qed.

(** ** Every outcome of [apply_refactorings_to_files] *)

Lemma call_raise {A} (o : history -> result A) ev h e :
  o h = Raise e -> call o ev h = (Raise e, (h ++ [ev (Raise e)])%list).
Proof. unfold call; intros ->; reflexivity. Qed.

Lemma ref_calls_app (a b : history) :
  ref_calls (a ++ b)%list = (ref_calls a ++ ref_calls b)%list.
Proof. apply flat_map_app. Qed.

Lemma update_branches_app (a b : history) :
  update_branches (a ++ b)%list = (update_branches a ++ update_branches b)%list.
Proof. apply flat_map_app. Qed.

Lemma applied_updates_app (a b : history) :
  applied_updates (a ++ b)%list = (applied_updates a ++ applied_updates b)%list.
Proof. apply flat_map_app. Qed.

Section ApplyOutcomes.

Variable w : world.
Variable year_width : nat.
Variable rp : repo.

(** The body of the update loop, for the branch [name]. *)
Let update_one (name : string) : string * string -> M unit :=
  fun '(file_path, new_content) =>
    print ("Updating file: " ++ file_path ++ " at repo: " ++ full_name rp) ;;;
    file_obj <- call (fun h => o_get_contents w h rp file_path name)
                     (EGetContents rp file_path name) ;;
    call (fun h => o_update_file w h rp file_path commit_message
                     new_content (cf_sha file_obj) name)
         (EUpdateFile rp file_path commit_message new_content
                      (cf_sha file_obj) name).

Lemma update_loop_outcomes (name : string) (items : list (string * string)) :
  forall h, exists r d n,
    for_each items (update_one name) h = (r, (h ++ d)%list)
    /\ applied_updates d = firstn n items
    /\ (r = Ok tt -> n = List.length items)
    /\ (forall e, r = Raise e -> n < List.length items)
    /\ Forall (eq name) (update_branches d)
    /\ chat_calls d = [] /\ pull_calls d = [] /\ ref_calls d = [].
Proof.
  induction items as [|[fp nc] rest IH]; intros h.
  - exists (Ok tt), [], 0. simpl. unfold ret. rewrite app_nil_r.
    repeat split; auto. discriminate.
  - set (line := EPrint ("Updating file: " ++ fp ++ " at repo: " ++ full_name rp)).
    set (h1 := (h ++ [line])%list).
    assert (Step : forall r1 h2,
               update_one name (fp, nc) h = (r1, h2) ->
               for_each ((fp, nc) :: rest) (update_one name) h
               = match r1 with
                 | Ok _ => for_each rest (update_one name) h2
                 | Raise e => (Raise e, h2)
                 end).
    { intros r1 h2 E. cbn [for_each]. unfold bind at 1. rewrite E.
      destruct r1; reflexivity. }
    destruct (o_get_contents w h1 rp fp name) as [cf|e] eqn:Hc.
    2:{ exists (Raise e), [line; EGetContents rp fp name (Raise e)], 0.
        split.
        - rewrite (Step (Raise e)
                     (h ++ [line; EGetContents rp fp name (Raise e)])%list);
            [reflexivity|].
          unfold update_one.
          rewrite (bind_ok _ _ _ _ _ (print_run _ _)). fold line h1.
          rewrite (bind_raise _ _ _ _ _ (call_raise _ _ _ _ Hc)).
          unfold h1. rewrite <- app_assoc. reflexivity.
        - repeat split; auto; try discriminate. intros e0 _. simpl. lia. }
    set (h2 := (h1 ++ [EGetContents rp fp name (Ok cf)])%list).
    destruct (o_update_file w h2 rp fp commit_message nc (cf_sha cf) name)
      as [[]|e] eqn:Hu.
    2:{ exists (Raise e),
          [line; EGetContents rp fp name (Ok cf);
           EUpdateFile rp fp commit_message nc (cf_sha cf) name (Raise e)], 0.
        split.
        - rewrite (Step (Raise e)
                     (h ++ [line; EGetContents rp fp name (Ok cf);
                            EUpdateFile rp fp commit_message nc (cf_sha cf)
                              name (Raise e)])%list);
            [reflexivity|].
          unfold update_one.
          rewrite (bind_ok _ _ _ _ _ (print_run _ _)). fold line h1.
          rewrite (bind_ok _ _ _ _ _ (call_ok _ _ _ _ Hc)). fold h2.
          rewrite (call_raise _ _ _ _ Hu).
          unfold h2, h1. rewrite <- !app_assoc. reflexivity.
        - repeat split; auto; try discriminate.
          + intros e0 _. simpl. lia.
          + repeat constructor. }
    set (h3 := (h2 ++ [EUpdateFile rp fp commit_message nc (cf_sha cf) name (Ok tt)])%list).
    destruct (IH h3) as (r & d & n & E & Ha & Hok & Hraise & Hb & Hc' & Hp & Hr).
    exists r,
      ([line; EGetContents rp fp name (Ok cf);
        EUpdateFile rp fp commit_message nc (cf_sha cf) name (Ok tt)] ++ d)%list,
      (S n).
    split.
    + erewrite Step with (r1 := Ok tt) (h2 := h3).
      * rewrite E. unfold h3, h2, h1. rewrite <- !app_assoc. reflexivity.
      * unfold update_one.
        rewrite (bind_ok _ _ _ _ _ (print_run _ _)). fold line h1.
        rewrite (bind_ok _ _ _ _ _ (call_ok _ _ _ _ Hc)). fold h2.
        apply (call_ok _ _ _ _ Hu).
    + split; [rewrite applied_updates_app, Ha; reflexivity|].
      split; [intros Hr0; simpl; rewrite (Hok Hr0); reflexivity|].
      split; [intros e Hr0; simpl; specialize (Hraise e Hr0); lia|].
      split; [rewrite update_branches_app; apply Forall_app; split;
              [repeat constructor | exact Hb]|].
      split; [rewrite chat_calls_app, Hc'; reflexivity|].
      split; [rewrite pull_calls_app, Hp; reflexivity|].
      rewrite ref_calls_app, Hr; reflexivity.
Qed.

(** The name of the new branch, fixed by the first clock reading. *)
Let name_at (h : history) : string :=
  branch_prefix ++ strftime_compact year_width (o_now w h).

Lemma apply_outcomes (files_updates : Dict.t string) (h : history) :
  exists r d n,
    apply_refactorings_to_files w year_width rp files_updates h
    = (r, (h ++ d)%list)
    /\ applied_updates d = firstn n files_updates
    /\ (forall b, r = Ok b ->
          b = name_at h /\ n = List.length files_updates
          /\ exists sha, ref_calls d = [("refs/heads/" ++ name_at h, sha, Ok tt)])
    /\ (n <> 0 ->
          exists sha, ref_calls d = [("refs/heads/" ++ name_at h, sha, Ok tt)])
    /\ (forall ref sha r0,
          In (ref, sha, r0) (ref_calls d) ->
          ref = "refs/heads/" ++ name_at h
          /\ In (EGetBranch rp "master" (Ok sha)) d)
    /\ List.length (ref_calls d) <= 1
    /\ Forall (eq (name_at h)) (update_branches d)
    /\ chat_calls d = [] /\ pull_calls d = [].
Proof.
  unfold apply_refactorings_to_files.
  change (bind (ask (o_now w) ENow) ?k h)
    with (k (o_now w h) (h ++ [ENow (o_now w h)])%list).
  cbv beta zeta. fold (name_at h). set (name := name_at h).
  set (h1 := (h ++ [ENow (o_now w h)])%list).
  destruct (o_get_branch w h1 rp "master") as [sha|e] eqn:Hb.
  2:{ exists (Raise e), [ENow (o_now w h); EGetBranch rp "master" (Raise e)], 0.
      split.
      - rewrite (bind_raise _ _ _ _ _ (call_raise _ _ _ _ Hb)).
        unfold h1. rewrite <- app_assoc. reflexivity.
      - repeat split; auto; try discriminate; try contradiction;
          try (simpl; lia). }
  set (h2 := (h1 ++ [EGetBranch rp "master" (Ok sha)])%list).
  set (line := EPrint ("Creating new branch '" ++ name ++ "' from 'main'...")).
  set (h3 := (h2 ++ [line])%list).
  destruct (o_create_git_ref w h3 rp ("refs/heads/" ++ name) sha)
    as [[]|e] eqn:Hr.
  2:{ exists (Raise e),
        [ENow (o_now w h); EGetBranch rp "master" (Ok sha); line;
         ECreateGitRef rp ("refs/heads/" ++ name) sha (Raise e)], 0.
      split.
      - rewrite (bind_ok _ _ _ _ _ (call_ok _ _ _ _ Hb)). fold h2.
        rewrite (bind_ok _ _ _ _ _ (print_run _ _)). fold line h3.
        rewrite (bind_raise _ _ _ _ _ (call_raise _ _ _ _ Hr)).
        unfold h3, h2, h1. rewrite <- !app_assoc. reflexivity.
      - split; [reflexivity|]. split; [discriminate|].
        split; [congruence|].
        split.
        + intros ref sha0 r0 [[= <- <- <-] | []].
          split; [reflexivity | simpl; auto].
        + repeat split; auto. }
  set (h4 := (h3 ++ [ECreateGitRef rp ("refs/heads/" ++ name) sha (Ok tt)])%list).
  destruct (update_loop_outcomes name files_updates h4)
    as (r & d & n & E & Ha & Hok & Hraise & Hbr & Hc & Hp & Hrf).
  exists (match r with Ok _ => Ok name | Raise e => Raise e end),
    ([ENow (o_now w h); EGetBranch rp "master" (Ok sha); line;
      ECreateGitRef rp ("refs/heads/" ++ name) sha (Ok tt)] ++ d)%list, n.
  assert (R : ref_calls
                ([ENow (o_now w h); EGetBranch rp "master" (Ok sha); line;
                  ECreateGitRef rp ("refs/heads/" ++ name) sha (Ok tt)] ++ d)%list
              = [("refs/heads/" ++ name, sha, Ok tt)])
    by (rewrite ref_calls_app, Hrf; reflexivity).
  split.
  - rewrite (bind_ok _ _ _ _ _ (call_ok _ _ _ _ Hb)). fold h2.
    rewrite (bind_ok _ _ _ _ _ (print_run _ _)). fold line h3.
    rewrite (bind_ok _ _ _ _ _ (call_ok _ _ _ _ Hr)). fold h4.
    unfold Dict.items. fold (update_one name).
    unfold bind at 1. rewrite E.
    unfold h4, h3, h2, h1. rewrite <- !app_assoc.
    destruct r as [[]|e]; reflexivity.
  - split; [rewrite applied_updates_app, Ha; reflexivity|].
    split.
    { intros b Hb0. destruct r as [[]|e]; [|discriminate].
      injection Hb0 as <-. split; [reflexivity|].
      split; [apply Hok; reflexivity | exists sha; exact R]. }
    split; [intros _; exists sha; exact R|].
    split.
    { intros ref sha0 r0 Hin. rewrite R in Hin.
      destruct Hin as [[= <- <- <-] | []].
      split; [reflexivity | simpl; auto]. }
    split; [rewrite R; simpl; lia|].
    split; [rewrite update_branches_app; apply Forall_app; split;
            [constructor | exact Hbr]|].
    split; [rewrite chat_calls_app, Hc; reflexivity|].
    rewrite pull_calls_app, Hp; reflexivity.
Qed.

End ApplyOutcomes.

(** X12. In every world, [apply_refactorings_to_files] addresses each of
    its file updates to the branch named after its first clock reading,
    which is never ["master"]; it creates at most one ref, the head of that
    branch, from the sha that the lookup of ["master"] answered; and the
    name it returns, when it returns, is that same name. *)
Theorem apply_writes_to_its_own_branch
    (w : world) (year_width : nat) (rp : repo)
    (files_updates : Dict.t string) (h : history) :
  let name := "openai-refactor-" ++ strftime_compact year_width (o_now w h) in
  let run := apply_refactorings_to_files w year_width rp files_updates h in
  exists d,
    snd run = (h ++ d)%list
    /\ Forall (eq name) (update_branches d)
    /\ name <> "master"
    /\ List.length (ref_calls d) <= 1
    /\ (forall ref sha r0,
          In (ref, sha, r0) (ref_calls d) ->
          ref = "refs/heads/" ++ name
          /\ In (EGetBranch rp "master" (Ok sha)) d)
    /\ (forall b, fst run = Ok b -> b = name).
Proof.
  cbv zeta.
  destruct (apply_outcomes w year_width rp files_updates h)
    as (r & d & n & E & _ & Hok & _ & Href & Hlen & Hbr & _).
  exists d. rewrite E. cbn [fst snd].
  split; [reflexivity|]. split; [exact Hbr|].
  split; [discriminate|]. split; [exact Hlen|].
  split; [exact Href|].
  intros b Hb. apply (Hok b Hb).
Qed.

Lemma apply_writes_to_its_own_branch_witness :
  update_branches
    (snd (apply_refactorings_to_files
            (Demo.world_of Demo.forked Demo.two_dirs Demo.noon) 4 Demo.forked
            [("A.java", "class A {}"); ("B.java", "class B {}")] []))
  = ["openai-refactor-20250309120007"; "openai-refactor-20250309120007"]
  /\ "openai-refactor-20250309120007"
     = "openai-refactor-" ++ strftime_compact 4 Demo.noon.
Proof.
  destruct (apply_writes_to_its_own_branch
              (Demo.world_of Demo.forked Demo.two_dirs Demo.noon) 4 Demo.forked
              [("A.java", "class A {}"); ("B.java", "class B {}")] [])
    as (d & _ & _ & _ & _ & _ & Hname).
  split; [reflexivity|].
  exact (Hname "openai-refactor-20250309120007" eq_refl).
Defined.

(** X13. In every world, the file updates of
    [apply_refactorings_to_files] that went through are a leading part of
    the dictionary, in its order: after an update or a fetch that raised,
    no later file is touched.  When the function returns, they are the
    whole dictionary; and none goes through unless the creation of the
    branch succeeded. *)
Theorem apply_updates_in_order
    (w : world) (year_width : nat) (rp : repo)
    (files_updates : Dict.t string) (h : history) :
  let run := apply_refactorings_to_files w year_width rp files_updates h in
  exists d n,
    snd run = (h ++ d)%list
    /\ applied_updates d = firstn n files_updates
    /\ (forall b, fst run = Ok b -> applied_updates d = files_updates)
    /\ (applied_updates d <> [] ->
        exists ref sha, ref_calls d = [(ref, sha, Ok tt)]).
Proof.
  cbv zeta.
  destruct (apply_outcomes w year_width rp files_updates h)
    as (r & d & n & E & Ha & Hok & Hn & _).
  exists d, n. rewrite E. cbn [fst snd].
  split; [reflexivity|]. split; [exact Ha|]. split.
  - intros b Hb. destruct (Hok b Hb) as (_ & -> & _).
    rewrite Ha. apply firstn_all.
  - intros Hne. destruct n as [|n].
    + rewrite Ha in Hne. contradiction Hne. reflexivity.
    + destruct (Hn ltac:(discriminate)) as (sha & Hr). eauto.
Qed.

Lemma apply_updates_in_order_witness :
  applied_updates
    (snd (apply_refactorings_to_files
            (Demo.world_of Demo.forked Demo.two_dirs Demo.noon) 4 Demo.forked
            [("A.java", "class A {}"); ("B.java", "class B {}")] []))
  = [("A.java", "class A {}"); ("B.java", "class B {}")].
Proof.
  destruct (apply_updates_in_order
              (Demo.world_of Demo.forked Demo.two_dirs Demo.noon) 4 Demo.forked
              [("A.java", "class A {}"); ("B.java", "class B {}")] [])
    as (d & n & E & _ & Hall & _).
  rewrite E. exact (Hall "openai-refactor-20250309120007" eq_refl).
Defined.

(** ** Every outcome of a run *)

Lemma publish_calls_app (a b : history) :
  publish_calls (a ++ b)%list = (publish_calls a ++ publish_calls b)%list.
Proof. apply filter_app. Qed.

Lemma quiet_no_publish (d : history) :
  quiet d -> publish_calls d = [] /\ chat_calls d = [].
Proof.
  unfold quiet; induction d as [|e d IH]; simpl; [auto|].
  intros H; apply orb_false_iff in H; destruct H as [He Hd].
  destruct (IH Hd) as (I1 & I2). unfold chat_calls in *. simpl.
  rewrite I1, I2. destruct e; simpl in He; try discriminate; auto.
Qed.

Lemma no_publish_projections (d : history) :
  publish_calls d = [] ->
  ref_calls d = [] /\ applied_updates d = [] /\ pull_calls d = [].
Proof.
  induction d as [|e d IH]; [auto|].
  unfold ref_calls, applied_updates, pull_calls in *. simpl.
  destruct e; simpl; try discriminate; exact IH.
Qed.

Lemma get_repo_quiet (w : world) (env : environ) h r h' :
  get_repo w env h = (r, h') -> exists d, h' = (h ++ d)%list /\ quiet d.
Proof.
  unfold get_repo. destruct (env "TOKEN") as [tok|].
  - destruct (negb (str_truthy tok) || negb (str_truthy repo_name)).
    + intros [= <- <-]. exists []. rewrite app_nil_r. split; reflexivity.
    + unfold bind, emit, call, print, emit, ret.
      destruct (o_get_repo w (h ++ [EGithub tok])%list tok repo_name);
        intros [= <- <-]; eexists; rewrite <- ?app_assoc;
        (split; [reflexivity|]); reflexivity.
  - intros [= <- <-]. exists []. rewrite app_nil_r. split; reflexivity.
Qed.

Lemma fixed_selection_two :
  fixed_selection = [first_selected; second_selected]
  /\ first_selected <> second_selected.
Proof. split; [reflexivity|]. intros H. vm_compute in H. discriminate H. Qed.

Section RunOutcomes.

Variable w : world.
Variable env : environ.
Variable year_width : nat.

Lemma refactor_footprint rp file_path branch llm_name h :
  exists r d,
    refactor_file_with_llm w rp file_path branch (call_openai w env) llm_name h
    = (r, (h ++ d)%list)
    /\ publish_calls d = []
    /\ List.length (chat_calls d) <= 2
    /\ forall res, r = Ok res ->
         exists key cf code s c,
           env "OPENAI_KEY" = Some key
           /\ res = (s, c, llm_name)
           /\ d = refactor_trace rp file_path branch key cf code s c.
Proof.
  destruct (refactor_outcomes w env rp file_path branch llm_name h)
    as [(e & E) | [(cf & e & _ & E) | [(cf & code & _ & _ & E)
       | [(cf & code & key & e & _ & _ & E)
       | [(cf & code & key & s & e & _ & _ & E)
       | (cf & code & key & s & c & _ & Ek & E)]]]]];
    rewrite E; do 2 eexists; (split; [reflexivity|]);
    (split; [reflexivity|]); (split; [simpl; lia|]);
    intros res Hres; try discriminate Hres.
  injection Hres as <-. exists key, cf, code, s, c. auto.
Qed.

(** The loop of [main] over two different paths. *)
Lemma process_two_outcomes rp f1 f2 h :
  f1 <> f2 ->
  exists r d,
    process_files w env rp [f1; f2] [] [] h = (r, (h ++ d)%list)
    /\ ((exists e, r = Raise e)
        /\ publish_calls d = [] /\ List.length (chat_calls d) <= 4
        \/ exists key cf1 code1 s1 c1 cf2 code2 s2 c2,
             r = Ok ([(f1, s1); (f2, s2)], [(f1, c1); (f2, c2)])
             /\ d = (processing f1
                     :: refactor_trace rp f1 "master" key cf1 code1 s1 c1
                     ++ processing f2
                     :: refactor_trace rp f2 "master" key cf2 code2 s2 c2)%list).
Proof.
  intros Hne.
  set (h1 := (h ++ [processing f1])%list).
  destruct (refactor_footprint rp f1 "master" "OpenAI" h1)
    as (r1 & d1 & E1 & P1 & C1 & Ok1).
  rewrite process_files_cons.
  change (bind (emit (processing f1)) ?k h) with (k tt h1). cbv beta.
  destruct r1 as [[[s1 c1] n1]|e1].
  2:{ exists (Raise e1), (processing f1 :: d1).
      split; [rewrite (bind_raise _ _ _ _ _ E1); unfold h1;
              rewrite <- app_assoc; reflexivity|].
      left. split; [eauto|]. split; [exact P1|].
      change (List.length (chat_calls d1) <= 4). lia. }
  destruct (Ok1 _ eq_refl) as (key & cf1 & code1 & s1' & c1' & Ek & Er & ->).
  injection Er as <- <- _.
  rewrite (bind_ok _ _ _ _ _ E1). cbv beta iota.
  set (t1 := refactor_trace rp f1 "master" key cf1 code1 s1 c1) in *.
  set (h2 := (h1 ++ t1)%list).
  set (h3 := (h2 ++ [processing f2])%list).
  destruct (refactor_footprint rp f2 "master" "OpenAI" h3)
    as (r2 & d2 & E2 & P2 & C2 & Ok2).
  rewrite process_files_cons.
  change (bind (emit (processing f2)) ?k h2) with (k tt h3). cbv beta.
  destruct r2 as [[[s2 c2] n2]|e2].
  2:{ exists (Raise e2), (processing f1 :: t1 ++ processing f2 :: d2)%list.
      split; [rewrite (bind_raise _ _ _ _ _ E2); unfold h3, h2, h1;
              rewrite <- !app_assoc; reflexivity|].
      left. split; [eauto|]. split.
      - change (publish_calls (t1 ++ processing f2 :: d2)%list = []).
        rewrite publish_calls_app. exact P2.
      - change (List.length (chat_calls (t1 ++ processing f2 :: d2)%list) <= 4).
        rewrite chat_calls_app, length_app.
        change (2 + List.length (chat_calls d2) <= 4). lia. }
  destruct (Ok2 _ eq_refl) as (key' & cf2 & code2 & s2' & c2' & Ek' & Er & ->).
  injection Er as <- <- _.
  assert (key' = key) by congruence. subst key'.
  rewrite (bind_ok _ _ _ _ _ E2). cbv beta iota.
  cbn [process_files]. unfold ret.
  rewrite !(dict_set_two f1 f2) by exact Hne.
  eexists _, _. split.
  - unfold h3, h2, h1. rewrite <- !app_assoc. reflexivity.
  - right. exists key, cf1, code1, s1, c1, cf2, code2, s2, c2. auto.
Qed.

End RunOutcomes.

Section MainOutcomes.

Variable w : world.
Variable env : environ.
Variable year_width : nat.

Lemma main_after_body r h :
  main_body w env year_width [] = (r, h) ->
  main w env year_width []
  = (Ok tt, match r with
            | Ok _ => h
            | Raise e => (h ++ [error_line e])%list
            end).
Proof.
  intros E. unfold main, try_except. rewrite E.
  destruct r as [[]|e]; reflexivity.
Qed.

(** A run either publishes nothing, or went through both files and
    reached [apply_refactorings_to_files]. *)
Lemma main_outcomes :
  exists h,
    main w env year_width [] = (Ok tt, h)
    /\ ((publish_calls h = [] /\ List.length (chat_calls h) <= 4)
        \/ exists rp key cf1 code1 s1 c1 cf2 code2 s2 c2 h0 dA n tail,
             let dF := both_refactored rp key cf1 code1 s1 c1 cf2 code2 s2 c2 in
             let files := [(first_selected, c1); (second_selected, c2)] in
             let name := branch_prefix
                         ++ strftime_compact year_width
                              (o_now w (h0 ++ dF)%list) in
             h = (h0 ++ dF ++ dA ++ tail)%list
             /\ publish_calls h0 = [] /\ chat_calls h0 = []
             /\ chat_calls dA = [] /\ pull_calls dA = []
             /\ List.length (ref_calls dA) <= 1
             /\ applied_updates dA = firstn n files
             /\ ((exists e, tail = [error_line e])
                 \/ exists r tail',
                      applied_updates dA = files
                      /\ (exists sha,
                            ref_calls dA = [("refs/heads/" ++ name, sha, Ok tt)])
                      /\ tail
                         = ECreatePull (fst (pull_target rp name)) pr_title
                             (pr_body_of [ (first_selected, s1);
                                           (second_selected, s2) ])
                             (snd (pull_target rp name)) "master" r
                           :: tail'
                      /\ publish_calls tail' = [] /\ chat_calls tail' = [])).
Proof.
  destruct (get_repo w env []) as [[rp|e] hg] eqn:G.
  2:{ destruct (get_repo_quiet w env _ _ _ G) as (d & -> & Hq).
      eexists. split.
      - apply main_after_body. unfold main_body.
        apply (bind_raise _ _ _ _ _ G).
      - left. cbn [app]. rewrite publish_calls_app, chat_calls_app.
        destruct (quiet_no_publish d Hq) as [-> ->]. split; [reflexivity|].
        simpl. lia. }
  destruct (get_repo_quiet w env _ _ _ G) as (dg & -> & Hqg).
  cbn [app] in G.
  destruct (pick_files w rp (Some "master") 2 dg) as [rs hp] eqn:EP.
  destruct (pick_files_inv w _ _ _ _ _ _ EP) as (dp & -> & Hqp & Hsel).
  assert (Hq0 : quiet (dg ++ dp)%list) by (apply quiet_app; assumption).
  destruct (quiet_no_publish _ Hq0) as [P0 C0].
  destruct rs as [sel|e].
  2:{ eexists. split.
      - apply main_after_body. unfold main_body.
        rewrite (bind_ok _ _ _ _ _ G). apply (bind_raise _ _ _ _ _ EP).
      - left. cbv iota. rewrite publish_calls_app, chat_calls_app, P0, C0.
        split; [reflexivity | simpl; lia]. }
  destruct (Hsel sel eq_refl) as [-> | ->]; clear Hsel.
  { eexists. split.
    - apply main_after_body. unfold main_body.
      rewrite (bind_ok _ _ _ _ _ G), (bind_ok _ _ _ _ _ EP). cbv iota.
      apply print_run.
    - left. cbv iota.
      rewrite publish_calls_app, chat_calls_app, P0, C0.
      split; [reflexivity | simpl; lia]. }
  destruct fixed_selection_two as [Efix Hne].
  set (h0 := (dg ++ dp)%list) in *.
  destruct (process_two_outcomes w env rp first_selected second_selected h0 Hne)
    as (rF & dF & EF & HF).
  assert (Start : main_body w env year_width []
                  = bind (process_files w env rp fixed_selection [] [])
                      (fun dicts =>
                         let '(files_design_smells, files_refactored) := dicts in
                         bind (apply_refactorings_to_files w year_width rp
                                 files_refactored)
                           (fun branch_name =>
                              bind (create_pull_request w rp branch_name
                                      (pr_body_of files_design_smells))
                                (fun pr_url =>
                                   bind (print (nl ++ "Pull Request created successfully:"))
                                     (fun _ => print pr_url)))) h0).
  { unfold main_body.
    rewrite (bind_ok _ _ _ _ _ G), (bind_ok _ _ _ _ _ EP). reflexivity. }
  rewrite Efix in Start.
  destruct HF as [((e & ->) & PF & CF) | HF].
  { eexists. split.
    - apply main_after_body. rewrite Start.
      apply (bind_raise _ _ _ _ _ EF).
    - left. cbv iota.
      rewrite !publish_calls_app, !chat_calls_app, P0, C0, PF.
      split; [reflexivity|]. rewrite !length_app. simpl. lia. }
  destruct HF as (key & cf1 & code1 & s1 & c1 & cf2 & code2 & s2 & c2 & -> & EdF).
  fold (both_refactored rp key cf1 code1 s1 c1 cf2 code2 s2 c2) in EdF.
  subst dF.
  set (dF := both_refactored rp key cf1 code1 s1 c1 cf2 code2 s2 c2) in *.
  set (files := [(first_selected, c1); (second_selected, c2)]).
  rewrite (bind_ok _ _ _ _ _ EF) in Start. cbv beta iota in Start.
  destruct (apply_outcomes w year_width rp files (h0 ++ dF)%list)
    as (rA & dA & n & EA & Ha & HokA & _ & _ & HlenA & _ & HcA & HpA).
  fold files in Start.
  set (name := branch_prefix
               ++ strftime_compact year_width (o_now w (h0 ++ dF)%list)) in *.
  destruct rA as [b|e].
  2:{ eexists. split.
      - apply main_after_body. rewrite Start.
        apply (bind_raise _ _ _ _ _ EA).
      - right.
        exists rp, key, cf1, code1, s1, c1, cf2, code2, s2, c2, h0, dA, n,
          [error_line e].
        cbv zeta. fold dF files.
        split; [cbv iota; rewrite <- !app_assoc; reflexivity|].
        repeat (split; [assumption|]). left. eauto. }
  destruct (HokA b eq_refl) as (-> & -> & sha & Href).
  rewrite (bind_ok _ _ _ _ _ EA) in Start.
  set (body := pr_body_of [(first_selected, s1); (second_selected, s2)]) in *.
  set (tg := pull_target rp name).
  set (hA := ((h0 ++ dF) ++ dA)%list) in *.
  assert (Pull : create_pull_request w rp name body hA
                 = (o_create_pull w hA (fst tg) pr_title body (snd tg) "master",
                    (hA ++ [ECreatePull (fst tg) pr_title body (snd tg) "master"
                              (o_create_pull w hA (fst tg) pr_title body (snd tg)
                                 "master")])%list)).
  { unfold create_pull_request. fold tg. destruct tg as [t hd]. reflexivity. }
  set (r := o_create_pull w hA (fst tg) pr_title body (snd tg) "master") in *.
  assert (Hfull : applied_updates dA = files)
    by (rewrite Ha; apply firstn_all).
  destruct r as [url|e] eqn:Er.
  - eexists. split.
    + apply main_after_body. rewrite Start.
      rewrite (bind_ok _ _ _ _ _ Pull).
      rewrite (bind_ok _ _ _ _ _ (print_run _ _)). apply print_run.
    + right.
      exists rp, key, cf1, code1, s1, c1, cf2, code2, s2, c2, h0, dA,
        (List.length files),
        [ECreatePull (fst tg) pr_title body (snd tg) "master" (Ok url);
         EPrint (nl ++ "Pull Request created successfully:"); EPrint url].
      cbv zeta. fold dF files name body tg.
      split; [unfold hA; rewrite <- !app_assoc; reflexivity|].
      repeat (split; [assumption|]). right.
      exists (Ok url),
        [EPrint (nl ++ "Pull Request created successfully:"); EPrint url].
      split; [exact Hfull|]. split; [eauto|]. repeat split.
  - eexists. split.
    + apply main_after_body. rewrite Start.
      apply (bind_raise _ _ _ _ _ Pull).
    + right.
      exists rp, key, cf1, code1, s1, c1, cf2, code2, s2, c2, h0, dA,
        (List.length files),
        [ECreatePull (fst tg) pr_title body (snd tg) "master" (Raise e);
         error_line e].
      cbv zeta. fold dF files name body tg.
      split; [cbv iota; unfold hA; rewrite <- !app_assoc; reflexivity|].
      repeat (split; [assumption|]). right.
      exists (Raise e), [error_line e].
      split; [exact Hfull|]. split; [eauto|]. repeat split.
Qed.

End MainOutcomes.

(** The calls of a run, read off its history. *)
Lemma main_projections (w : world) (env : environ) (year_width : nat) :
  exists h,
    main w env year_width [] = (Ok tt, h)
    /\ ((publish_calls h = [] /\ List.length (chat_calls h) <= 4)
        \/ exists rp code1 s1 c1 code2 s2 c2 n name,
             let files := [(first_selected, c1); (second_selected, c2)] in
             chat_calls h
             = [ (chat_messages (prompt_design_smells code1) smell_role, Ok s1);
                 (chat_messages (prompt_refactor s1 code1) refactor_role, Ok c1);
                 (chat_messages (prompt_design_smells code2) smell_role, Ok s2);
                 (chat_messages (prompt_refactor s2 code2) refactor_role, Ok c2) ]
             /\ applied_updates h = firstn n files
             /\ List.length (ref_calls h) <= 1
             /\ (pull_calls h = []
                 \/ pull_calls h
                    = [ (fst (pull_target rp name), snd (pull_target rp name),
                         pr_body_of [ (first_selected, s1);
                                      (second_selected, s2) ]) ]
                    /\ applied_updates h = files
                    /\ exists sha,
                         ref_calls h = [("refs/heads/" ++ name, sha, Ok tt)])).
Proof.
  destruct (main_outcomes w env year_width) as (h & E & [Hl | Hr]).
  - exists h. split; [exact E|]. left. exact Hl.
  - destruct Hr as (rp & key & cf1 & code1 & s1 & c1 & cf2 & code2 & s2 & c2
                    & h0 & dA & n & tail & Hr).
    cbv zeta in Hr.
    set (dF := both_refactored rp key cf1 code1 s1 c1 cf2 code2 s2 c2) in *.
    set (files := [(first_selected, c1); (second_selected, c2)]) in *.
    set (name := branch_prefix
                 ++ strftime_compact year_width (o_now w (h0 ++ dF)%list)) in *.
    destruct Hr as (-> & P0 & C0 & CA & PA & LA & Ha & Htail).
    destruct (no_publish_projections h0 P0) as (R0 & A0 & L0).
    exists (h0 ++ dF ++ dA ++ tail)%list. split; [exact E|]. right.
    exists rp, code1, s1, c1, code2, s2, c2, n, name. cbv zeta. fold files.
    rewrite !chat_calls_app, !applied_updates_app, !ref_calls_app,
      !pull_calls_app, C0, A0, R0, L0, CA, PA, Ha.
    change (chat_calls dF)
      with [ (chat_messages (prompt_design_smells code1) smell_role, Ok s1);
             (chat_messages (prompt_refactor s1 code1) refactor_role, Ok c1);
             (chat_messages (prompt_design_smells code2) smell_role, Ok s2);
             (chat_messages (prompt_refactor s2 code2) refactor_role, Ok c2) ].
    change (applied_updates dF) with (@nil (string * string)).
    change (ref_calls dF) with (@nil (string * string * result unit)).
    change (pull_calls dF) with (@nil (repo * string * string)).
    cbn [app].
    destruct Htail as [(e & ->) | (r & tail' & Hfull & (sha & Href) & -> & Pt & Ct)].
    + cbn [chat_calls applied_updates ref_calls pull_calls flat_map app error_line].
      rewrite !app_nil_r.
      split; [reflexivity|]. split; [reflexivity|]. split; [exact LA|].
      left. reflexivity.
    + destruct (no_publish_projections tail' Pt) as (Rt & At & Lt).
      cbn [chat_calls applied_updates ref_calls pull_calls flat_map app].
      fold (chat_calls tail') (applied_updates tail') (ref_calls tail')
        (pull_calls tail').
      rewrite Ct, Rt, At, Lt, !app_nil_r.
      split; [reflexivity|]. split; [reflexivity|]. split; [exact LA|].
      right. split; [reflexivity|]. split.
      * rewrite <- Ha. exact Hfull.
      * exists sha. exact Href.
Qed.

(** X14. In every world and environment, a run changes the repository
    only after both selected files got both LLM answers: a history with a
    branch creation, a file update or a pull request holds exactly four
    chat calls, all answered, each refactor prompt built from the smell
    report before it. *)
Theorem main_publishes_after_all_answers
    (w : world) (env : environ) (year_width : nat) :
  let h := snd (main w env year_width []) in
  publish_calls h <> [] ->
  exists code1 s1 c1 code2 s2 c2,
    chat_calls h
    = [ (chat_messages (prompt_design_smells code1) smell_role, Ok s1);
        (chat_messages (prompt_refactor s1 code1) refactor_role, Ok c1);
        (chat_messages (prompt_design_smells code2) smell_role, Ok s2);
        (chat_messages (prompt_refactor s2 code2) refactor_role, Ok c2) ].
Proof.
  cbv zeta.
  destruct (main_projections w env year_width) as (h & E & [[Hp _] | Hr]);
    rewrite E; cbn [snd]; intros Hne.
  - contradiction.
  - destruct Hr as (rp & code1 & s1 & c1 & code2 & s2 & c2 & n & name & Hc & _).
    exists code1, s1, c1, code2, s2, c2. exact Hc.
Qed.

Lemma main_publishes_after_all_answers_witness :
  List.length
    (chat_calls
       (snd (main (Demo.world_of Demo.forked Demo.two_dirs Demo.noon)
               Demo.env_full 4 [])))
  = 4.
Proof.
  destruct (main_publishes_after_all_answers
              (Demo.world_of Demo.forked Demo.two_dirs Demo.noon)
              Demo.env_full 4)
    as (code1 & s1 & c1 & code2 & s2 & c2 & E).
  - vm_compute. discriminate.
  - rewrite E. reflexivity.
Defined.

(** X15. In every world and environment, a pull request is requested
    only when the branch was created and both refactored contents were
    written, in the order of the selection; it is the only one, its
    head and target are those computed from the created branch, and its
    body is built from the two smell reports. *)
Theorem main_pull_request_after_updates
    (w : world) (env : environ) (year_width : nat) :
  let h := snd (main w env year_width []) in
  pull_calls h <> [] ->
  exists rp name sha s1 c1 s2 c2,
    pull_calls h
    = [ (fst (pull_target rp name), snd (pull_target rp name),
         pr_body_of [(first_selected, s1); (second_selected, s2)]) ]
    /\ ref_calls h = [("refs/heads/" ++ name, sha, Ok tt)]
    /\ applied_updates h = [(first_selected, c1); (second_selected, c2)]
    /\ map snd (chat_calls h) = [Ok s1; Ok c1; Ok s2; Ok c2].
Proof.
  cbv zeta.
  destruct (main_projections w env year_width) as (h & E & [[Hp _] | Hr]);
    rewrite E; cbn [snd]; intros Hne.
  - destruct (no_publish_projections h Hp) as (_ & _ & Hl). contradiction.
  - destruct Hr as (rp & code1 & s1 & c1 & code2 & s2 & c2 & n & name
                    & Hc & _ & _ & [Hnone | (Hpull & Hupd & sha & Href)]);
      [contradiction|].
    exists rp, name, sha, s1, c1, s2, c2.
    split; [exact Hpull|]. split; [exact Href|]. split; [exact Hupd|].
    rewrite Hc. reflexivity.
Qed.

Lemma main_pull_request_after_updates_witness :
  map fst
    (applied_updates
       (snd (main (Demo.world_of Demo.forked Demo.two_dirs Demo.noon)
               Demo.env_full 4 [])))
  = [first_selected; second_selected].
Proof.
  destruct (main_pull_request_after_updates
              (Demo.world_of Demo.forked Demo.two_dirs Demo.noon)
              Demo.env_full 4)
    as (rp & name & sha & s1 & c1 & s2 & c2 & _ & _ & E & _).
  - vm_compute. discriminate.
  - rewrite E. reflexivity.
Defined.

(** X16. In every world and environment a run is bounded: at most four
    chat calls, at most one branch creation, at most two file updates that
    go through, at most one pull request. *)
Theorem main_bounded_footprint
    (w : world) (env : environ) (year_width : nat) :
  let h := snd (main w env year_width []) in
  List.length (chat_calls h) <= 4
  /\ List.length (ref_calls h) <= 1
  /\ List.length (applied_updates h) <= 2
  /\ List.length (pull_calls h) <= 1.
Proof.
  cbv zeta.
  destruct (main_projections w env year_width) as (h & E & [[Hp Hc] | Hr]);
    rewrite E; cbn [snd].
  - destruct (no_publish_projections h Hp) as (-> & -> & ->).
    simpl. repeat split; lia.
  - destruct Hr as (rp & code1 & s1 & c1 & code2 & s2 & c2 & n & name
                    & Hc & Ha & Hr & Hpull).
    rewrite Hc, Ha. split; [simpl; lia|]. split; [exact Hr|]. split.
    + rewrite length_firstn. simpl. lia.
    + destruct Hpull as [-> | (-> & _)]; simpl; lia.
Qed.

(** ** No call after a call that raised *)

Lemma clean_app (a b : history) : clean (a ++ b)%list = clean a && clean b.
Proof. apply forallb_app. Qed.

Lemma stops_after_clean {A} (r : result A) (d1 d2 : history) :
  clean d1 = true -> stops_at_failure r d2 -> stops_at_failure r (d1 ++ d2)%list.
Proof.
  intros H1. destruct r as [a|x]; simpl.
  - intros H2. rewrite clean_app, H1, H2. reflexivity.
  - intros [H2 | (d0 & e & -> & H0 & He)].
    + left. rewrite clean_app, H1, H2. reflexivity.
    + right. exists (d1 ++ d0)%list, e.
      rewrite app_assoc, clean_app, H1, H0. auto.
Qed.

Section FailFast.

Context {A B : Type}.

Lemma fail_fast_ret (a : A) : fail_fast (ret a).
Proof.
  intros h r h' [= <- <-]. exists []. rewrite app_nil_r. split; reflexivity.
Qed.

Lemma fail_fast_raise (x : exn) : fail_fast (@raise A x).
Proof.
  intros h r h' [= <- <-]. exists []. rewrite app_nil_r.
  split; [reflexivity | left; reflexivity].
Qed.

Lemma fail_fast_lift (r0 : result A) : fail_fast (lift r0).
Proof.
  intros h r h' [= <- <-]. exists []. rewrite app_nil_r.
  split; [reflexivity|]. destruct r0; [reflexivity | left; reflexivity].
Qed.

Lemma fail_fast_call (o : history -> result A) (ev : result A -> event) :
  (forall a, raised (ev (Ok a)) = None) ->
  (forall x, raised (ev (Raise x)) = Some x) ->
  fail_fast (call o ev).
Proof.
  intros Hok Hraise h r h' E. unfold call in E. injection E as <- <-.
  exists [ev (o h)]. split; [reflexivity|].
  destruct (o h) as [a|x]; simpl.
  - rewrite Hok. reflexivity.
  - right. exists [], (ev (Raise x)). auto.
Qed.

Lemma fail_fast_ask (o : history -> A) (ev : A -> event) :
  (forall a, raised (ev a) = None) -> fail_fast (ask o ev).
Proof.
  intros Hev h r h' E. unfold ask in E. injection E as <- <-.
  exists [ev (o h)]. split; [reflexivity|]. simpl. rewrite Hev. reflexivity.
Qed.

Lemma fail_fast_bind (m : M A) (k : A -> M B) :
  fail_fast m -> (forall a, fail_fast (k a)) -> fail_fast (bind m k).
Proof.
  intros Hm Hk h r h' E. unfold bind in E.
  destruct (m h) as [[a|x] h1] eqn:Em.
  - destruct (Hm _ _ _ Em) as (d1 & -> & S1).
    destruct (Hk a _ _ _ E) as (d2 & -> & S2).
    exists (d1 ++ d2)%list. split; [rewrite app_assoc; reflexivity|].
    apply stops_after_clean; assumption.
  - injection E as <- <-. apply (Hm _ _ _ Em).
Qed.

End FailFast.

Lemma fail_fast_emit (e : event) : raised e = None -> fail_fast (emit e).
Proof.
  intros He h r h' [= <- <-]. exists [e]. split; [reflexivity|].
  simpl. rewrite He. reflexivity.
Qed.

Lemma fail_fast_print (line : string) : fail_fast (print line).
Proof. apply fail_fast_emit. reflexivity. Qed.

Lemma fail_fast_for_each {A} (xs : list A) (body : A -> M unit) :
  (forall x, fail_fast (body x)) -> fail_fast (for_each xs body).
Proof.
  intros Hb. induction xs as [|x r IH]; simpl.
  - apply fail_fast_ret.
  - apply fail_fast_bind; [apply Hb | intros _; exact IH].
Qed.

Ltac fail_fast_step :=
  first
    [ apply fail_fast_ret | apply fail_fast_raise | apply fail_fast_lift
    | apply fail_fast_print
    | apply fail_fast_emit; reflexivity
    | apply fail_fast_ask; intros; reflexivity
    | apply fail_fast_call; intros; reflexivity
    | apply fail_fast_for_each; intros
    | apply fail_fast_bind; [|intros] ].

Section FailFastProgram.

Variable w : world.
Variable env : environ.
Variable year_width : nat.

Lemma fail_fast_randbelow n : fail_fast (randbelow w n).
Proof. unfold randbelow. fail_fast_step. Qed.

Lemma fail_fast_random_choice {A} (seq : list A) : fail_fast (random_choice w seq).
Proof.
  unfold random_choice. destruct seq; [fail_fast_step|].
  apply fail_fast_bind; [apply fail_fast_randbelow | intros; fail_fast_step].
Qed.

Lemma fail_fast_sample_pool {A} (k : nat) :
  forall pool : list A, fail_fast (sample_pool w pool k).
Proof.
  induction k as [|k IH]; intros pool; simpl; [fail_fast_step|].
  destruct pool; [fail_fast_step|].
  apply fail_fast_bind; [apply fail_fast_randbelow | intros j].
  apply fail_fast_bind; [apply IH | intros; fail_fast_step].
Qed.

Lemma fail_fast_random_sample {A} (population : list A) (k : Z) :
  fail_fast (random_sample w population k).
Proof.
  unfold random_sample.
  destruct ((0 <=? k)%Z && (k <=? Z.of_nat (List.length population))%Z);
    [apply fail_fast_sample_pool | fail_fast_step].
Qed.

Lemma fail_fast_call_openai prompt role : fail_fast (call_openai w env prompt role).
Proof.
  unfold call_openai. repeat fail_fast_step.
  destruct (env "OPENAI_KEY"); fail_fast_step.
Qed.

Lemma fail_fast_get_repo : fail_fast (get_repo w env).
Proof.
  unfold get_repo. destruct (env "TOKEN") as [tok|]; [|fail_fast_step].
  destruct (negb (str_truthy tok) || negb (str_truthy repo_name));
    repeat fail_fast_step.
Qed.

Lemma fail_fast_pick_files rp branch count :
  fail_fast (pick_files w rp branch count).
Proof.
  unfold pick_files. apply fail_fast_bind; [fail_fast_step | intros tree].
  destruct (group_by_dir tree); [fail_fast_step|].
  apply fail_fast_bind; [apply fail_fast_random_choice | intros dir].
  apply fail_fast_bind;
    [destruct (Dict.get _ dir); fail_fast_step | intros files].
  apply fail_fast_bind; [apply fail_fast_random_sample | intros _].
  repeat fail_fast_step.
Qed.

Lemma fail_fast_refactor rp file_path branch llm_name :
  fail_fast (refactor_file_with_llm w rp file_path branch (call_openai w env)
               llm_name).
Proof.
  unfold refactor_file_with_llm.
  apply fail_fast_bind; [fail_fast_step | intros cf].
  apply fail_fast_bind; [fail_fast_step | intros code].
  apply fail_fast_bind; [apply fail_fast_call_openai | intros s].
  apply fail_fast_bind; [apply fail_fast_call_openai | intros c].
  fail_fast_step.
Qed.

Lemma fail_fast_process_files rp files :
  forall ds rf, fail_fast (process_files w env rp files ds rf).
Proof.
  induction files as [|f r IH]; intros ds rf; simpl; [fail_fast_step|].
  apply fail_fast_bind; [fail_fast_step | intros _].
  apply fail_fast_bind; [apply fail_fast_refactor | intros [[s c] n]].
  apply IH.
Qed.

Lemma fail_fast_apply rp files_updates :
  fail_fast (apply_refactorings_to_files w year_width rp files_updates).
Proof.
  unfold apply_refactorings_to_files.
  apply fail_fast_bind; [fail_fast_step | intros now].
  apply fail_fast_bind; [fail_fast_step | intros sha].
  apply fail_fast_bind; [fail_fast_step | intros _].
  apply fail_fast_bind; [fail_fast_step | intros _].
  apply fail_fast_bind; [|intros; fail_fast_step].
  apply fail_fast_for_each. intros [fp nc]. repeat fail_fast_step.
Qed.

Lemma fail_fast_create_pull_request rp branch_name pr_body :
  fail_fast (create_pull_request w rp branch_name pr_body).
Proof.
  unfold create_pull_request. destruct (pull_target rp branch_name).
  fail_fast_step.
Qed.

Lemma fail_fast_main_body : fail_fast (main_body w env year_width).
Proof.
  unfold main_body.
  apply fail_fast_bind; [apply fail_fast_get_repo | intros rp].
  apply fail_fast_bind; [apply fail_fast_pick_files | intros sel].
  destruct sel; [fail_fast_step|].
  apply fail_fast_bind; [apply fail_fast_process_files | intros [ds rf]].
  apply fail_fast_bind; [apply fail_fast_apply | intros name].
  apply fail_fast_bind; [apply fail_fast_create_pull_request | intros url].
  repeat fail_fast_step.
Qed.

End FailFastProgram.

Lemma clean_not_raised (pre post : history) (e : event) (x : exn) :
  clean (pre ++ e :: post)%list = true -> raised e = Some x -> False.
Proof.
  rewrite clean_app. simpl. intros H He. rewrite He in H.
  rewrite andb_false_r in H. discriminate H.
Qed.

Lemma failure_position (d0 : history) :
  forall (e0 : event) (tl pre : history) (e : event) (post : history) (x : exn),
    clean d0 = true -> raised e0 <> None -> clean tl = true ->
    (d0 ++ e0 :: tl)%list = (pre ++ e :: post)%list ->
    raised e = Some x ->
    pre = d0 /\ e = e0 /\ post = tl.
Proof.
  induction d0 as [|a d0 IH]; intros e0 tl pre e post x Hd He0 Htl E He.
  - destruct pre as [|p pre]; simpl in E; injection E as -> E.
    + auto.
    + subst tl. exfalso. apply (clean_not_raised _ _ _ _ Htl He).
  - simpl in Hd. apply andb_true_iff in Hd. destruct Hd as [Ha Hd].
    destruct pre as [|p pre]; simpl in E; injection E as -> E.
    + rewrite He in Ha. discriminate Ha.
    + destruct (IH e0 tl pre e post x Hd He0 Htl E He) as (-> & -> & ->).
      auto.
Qed.

(** X17. In every world and environment, the first call of a run that
    raises is its last call: no call before it raised, and all that
    follows it in the history is the line of the handler, with the text of
    the exception that call raised.  Nothing is retried and nothing is
    attempted afterwards. *)
Theorem main_stops_at_first_failure
    (w : world) (env : environ) (year_width : nat)
    (pre : history) (e : event) (x : exn) (post : history) :
  snd (main w env year_width []) = (pre ++ e :: post)%list ->
  raised e = Some x ->
  clean pre = true
  /\ post = [EPrint ("An error occurred: " ++ exn_str x)].
Proof.
  intros E He.
  destruct (main_body w env year_width []) as [r d] eqn:Body.
  destruct (fail_fast_main_body w env year_width _ _ _ Body) as (d' & -> & S).
  cbn [app] in Body.
  unfold main, try_except in E. rewrite Body in E.
  destruct r as [[]|y]; cbn [snd] in E; simpl in S.
  - exfalso. rewrite E in S. apply (clean_not_raised _ _ _ _ S He).
  - change (print ("An error occurred: " ++ exn_str y) d')
      with (Ok tt, (d' ++ [error_line y])%list) in E.
    cbn [snd] in E.
    destruct S as [S | (d0 & e0 & -> & S0 & He0)].
    + exfalso.
      assert (C : clean (d' ++ [error_line y])%list = true)
        by (rewrite clean_app, S; reflexivity).
      rewrite E in C. apply (clean_not_raised _ _ _ _ C He).
    + rewrite <- app_assoc in E. cbn [app] in E.
      destruct (failure_position d0 e0 [error_line y] pre e post x S0
                  ltac:(rewrite He0; discriminate) eq_refl E He)
        as (-> & -> & ->).
      split; [exact S0|].
      rewrite He0 in He. injection He as <-. reflexivity.
Qed.

Lemma main_stops_at_first_failure_witness :
  clean (firstn 13 (snd (main world_llm_down Demo.env_full 4 []))) = true
  /\ skipn 14 (snd (main world_llm_down Demo.env_full 4 []))
     = [EPrint "An error occurred: rate limited"].
Proof.
  apply (main_stops_at_first_failure world_llm_down Demo.env_full 4
           (firstn 13 (snd (main world_llm_down Demo.env_full 4 [])))
           (nth 13 (snd (main world_llm_down Demo.env_full 4 [])) (EPrint EmptyString))
           (mkExn "RateLimitError" "rate limited")
           (skipn 14 (snd (main world_llm_down Demo.env_full 4 [])))).
  - vm_compute. reflexivity.
  - vm_compute. reflexivity.
Defined.

(** ** The parent directory of a path *)

Lemma chars_app (a b : string) :
  list_ascii_of_string (a ++ b)
  = (list_ascii_of_string a ++ list_ascii_of_string b)%list.
Proof. induction a as [|c a IH]; simpl; [reflexivity | rewrite IH; reflexivity]. Qed.

Lemma forallb_rev {A} (p : A -> bool) (l : list A) :
  forallb p (rev l) = forallb p l.
Proof.
  induction l as [|x l IH]; [reflexivity|].
  simpl. rewrite forallb_app, IH. simpl. rewrite andb_true_r, andb_comm.
  reflexivity.
Qed.

Lemma dropwhile_all (p : ascii -> bool) (l : list ascii) :
  forallb p l = true -> PyStr.dropwhile p l = [].
Proof.
  induction l as [|c l IH]; [reflexivity|].
  simpl. intros H. apply andb_true_iff in H. destruct H as [-> H]. auto.
Qed.

Lemma dropwhile_stop (p : ascii -> bool) (a : list ascii) (c : ascii)
    (b : list ascii) :
  forallb p a = true -> p c = false ->
  PyStr.dropwhile p (a ++ c :: b) = c :: b.
Proof.
  intros Ha Hc. induction a as [|x a IH]; simpl.
  - rewrite Hc. reflexivity.
  - simpl in Ha. apply andb_true_iff in Ha. destruct Ha as [-> Ha]. auto.
Qed.

(** X18. The directory [pick_files] files a path under: the empty name
    for a path without ['/'], and [dir] for [dir/name] when [name] has no
    ['/'] and [dir] ends in a character other than ['/']. *)
Theorem dirname_of_path (name : string) :
  string_forallb (fun c => negb (PyStr.is_sep c)) name = true ->
  PyStr.dirname name = EmptyString
  /\ forall stem c,
       PyStr.is_sep c = false ->
       PyStr.dirname ((stem ++ String c EmptyString) ++ "/" ++ name)
       = stem ++ String c EmptyString.
Proof.
  unfold string_forallb. intros Hn.
  assert (Hr : forallb (fun c => negb (PyStr.is_sep c))
                 (rev (list_ascii_of_string name)) = true)
    by (rewrite forallb_rev; exact Hn).
  split.
  - unfold PyStr.dirname. rewrite (dropwhile_all _ _ Hr). reflexivity.
  - intros stem c Hc. unfold PyStr.dirname.
    rewrite !chars_app. cbn [list_ascii_of_string app].
    rewrite !rev_app_distr. cbn [rev app]. rewrite <- !app_assoc. cbn [app].
    rewrite (dropwhile_stop _ _ "/"%char _ Hr eq_refl).
    cbn [forallb]. change (PyStr.is_sep "/") with true. rewrite Hc.
    cbn [andb PyStr.dropwhile]. change (PyStr.is_sep "/") with true.
    cbn iota. rewrite Hc.
    cbn [rev]. rewrite rev_involutive.
    change [c] with (list_ascii_of_string (String c EmptyString)).
    rewrite <- chars_app. apply string_of_list_ascii_of_string.
Qed.

Lemma dirname_of_path_witness :
  PyStr.dirname "Main.java" = EmptyString
  /\ PyStr.dirname "src/main/Main.java" = "src/main".
Proof.
  destruct (dirname_of_path "Main.java" eq_refl) as [H0 H1].
  split; [exact H0|].
  exact (H1 "src/mai" "n"%char eq_refl).
Defined.
